(** * Harvest Horizon / FarmSense: the yield-scoring engine, the climate
    fallback generator and the board game's solution cards.

    A shallow embedding of [app.py], [game_engine.py] and [pygame_game.py].

    Modelling conventions.
    - Python [int] is [Z].  Python [float] is [Q]: a float is modelled by the
      rational it denotes and arithmetic on it is exact.  The thresholds the
      code compares against ([0.3], [0.5], [2.0], ...) are decimal literals and
      the summary values are outputs of [round(_, n)], for which comparison of
      the floats agrees with comparison of the decimals they print as.  A
      sum of doubles carries a rounding error that the exact sum does not:
      the lemmas on [mean] are about the exact sum, and the numbered
      properties that bound a reported value close or pad the bound so that
      it holds of the doubles as well.
    - A raised exception is the [Raise] branch of [result].
    - A [dict] whose keys are fixed by the code is a record; a [dict] read
      through [in] and [[]] is a [gmap]; the date-keyed series keep their
      insertion order, which [.values()] exposes, as association lists.
    - An f-string is kept as a template: its literal text and the values it
      interpolates, in order. *)

From Stdlib Require Import QArith Qround Qabs Qminmax ZArith Lia Lqa.
From stdpp Require Import base option list strings pretty gmap.

Open Scope string_scope.
Open Scope list_scope.

(** ** Exceptions *)

Inductive exn : Type :=
| KeyError (key : string)
| ZeroDivisionError
| IndexError.

Inductive result (A : Type) : Type :=
| Return (a : A)
| Raise (e : exn).
Arguments Return {A} a.
Arguments Raise {A} e.

#[global] Instance result_ret : MRet result := fun _ a => Return a.
#[global] Instance result_bind : MBind result := fun _ _ f c =>
  match c with
  | Return a => f a
  | Raise e => Raise e
  end.

#[global] Instance result_fmap : FMap result := fun _ _ f c =>
  match c with
  | Return a => Return (f a)
  | Raise e => Raise e
  end.

(** ** Comparisons, [max], [min] and [round] on numbers *)

Definition Qltb (x y : Q) : bool := negb (Qle_bool y x).
Definition Qgtb (x y : Q) : bool := Qltb y x.

(** [max(a, b)] keeps its first argument unless the second is strictly
    greater; [min(a, b)] keeps it unless the second is strictly smaller. *)
Definition py_max (a b : Q) : Q := if Qgtb b a then b else a.
Definition py_min (a b : Q) : Q := if Qltb b a then b else a.

Definition py_maxZ (a b : Z) : Z := if (a <? b)%Z then b else a.
Definition py_minZ (a b : Z) : Z := if (b <? a)%Z then b else a.

(** [sum(xs)] starts from [0] and adds from the left. *)
Definition py_sum (xs : list Q) : Q := foldl Qplus (0%Q) xs.

(** [sum(xs) / len(xs)]: true division, which raises on an empty list. *)
Definition mean (xs : list Q) : result Q :=
  match xs with
  | [] => Raise ZeroDivisionError
  | _ => Return (py_sum xs / inject_Z (Z.of_nat (length xs)))%Q
  end.

(** [round(x, ndigits)]: to the nearest multiple of [10^-ndigits], a tie
    going to the even one. *)
Definition round_half_even (y : Q) : Z :=
  let f := Qfloor y in
  let r := (y - inject_Z f)%Q in
  if Qltb r (1 # 2) then f
  else if Qltb (1 # 2) r then (f + 1)%Z
  else if Z.even f then f else (f + 1)%Z.

Definition py_round (x : Q) (ndigits : nat) : Q :=
  let s := inject_Z (10 ^ Z.of_nat ndigits) in
  (inject_Z (round_half_even (x * s)) / s)%Q.

(** ** Templates for f-strings *)

Inductive fragment : Type :=
| Text (s : string)
| Float (x : Q)
| Int (n : Z).

Definition fstring : Type := list fragment.

(** ** The climate response *)

(** One variable of the response: a date-keyed [dict], in insertion order.
    A date is kept as its day number; [strftime('%Y%m%d')] renders distinct
    days as distinct keys. *)
Definition series : Type := list (Z * Q).

Definition values (s : series) : list Q := s.*2.

(** [data['properties']['parameter']] with its four variables. *)
Record parameter : Type := {
  T2M : series;
  PRECTOTCORR : series;
  GWETROOT : series;
  ALLSKY_SFC_SW_DWN : series
}.

(** A dict with the keys ['irrigation'] and ['fertilizer']: the slider
    values of a player, and a scenario's ['optimal']. *)
Module Decision.
Record t : Type := {
  irrigation : Z;
  fertilizer : Z
}.
End Decision.
Abbreviation decision := Decision.t.

(** ** Dates and the random generator *)

(** [pd.date_range(end=now, periods=n)]: [n] consecutive days, the last one
    being today. *)
Definition date_range (today : Z) (periods : nat) : list Z :=
  (fun j : nat => (today - Z.of_nat (periods - 1 - j))%Z) <$> seq 0 periods.

(** numpy's global generator: the numbers it is going to hand out, and how
    many were handed out so far. *)
Record RandomState : Type := {
  draws : nat -> Q;
  drawn : nat
}.

(** [np.random.random()]. *)
Definition random (g : RandomState) : Q * RandomState :=
  (draws g (drawn g), {| draws := draws g; drawn := S (drawn g) |}).

(** [{date.strftime('%Y%m%d'): f(i, random()) for i, date in enumerate(dates)}]:
    one draw per entry, entries in the order of [dates]. *)
Fixpoint random_comprehension (f : nat -> Q -> Q) (i : nat) (dates : list Z)
    (g : RandomState) : series * RandomState :=
  match dates with
  | [] => ([], g)
  | date :: dates =>
      let '(r, g) := random g in
      let '(s, g) := random_comprehension f (S i) dates g in
      ((date, f i r) :: s, g)
  end.

(** [{date.strftime('%Y%m%d'): f(i) for i, date in enumerate(dates)}]. *)
Definition comprehension (f : nat -> Q) (dates : list Z) : series :=
  imap (fun i date => (date, f i)) dates.

(** [i % n] on a day index, as a number. *)
Definition imod (i : nat) (n : Z) : Q := inject_Z (Z.of_nat i mod n).

(** * [app.py] *)

Module App.

Record location : Type := { lat : Q; lon : Q }.

Record scenario_data : Type := {
  name : string;
  difficulty : string;
  description : string;
  scenario_location : location;
  optimal : decision
}.

Definition SCENARIOS : list (string * scenario_data) :=
  [ ("wheat_kansas",
     {| name := "🌾 Wheat Farm - Kansas, USA"; difficulty := "Easy";
        description := "Moderate climate with variable rainfall. Learn basic soil moisture monitoring.";
        scenario_location := {| lat := 37.5; lon := -95.5 |};
        optimal := {| Decision.irrigation := 45; Decision.fertilizer := 50 |} |});
    ("corn_iowa",
     {| name := "🌽 Corn Farm - Iowa, USA"; difficulty := "Medium";
        description := "Higher water needs. Balance abundant water with crop requirements.";
        scenario_location := {| lat := 42.0; lon := -93.5 |};
        optimal := {| Decision.irrigation := 60; Decision.fertilizer := 55 |} |});
    ("rice_california",
     {| name := "🍚 Rice Farm - California, USA"; difficulty := "Hard";
        description := "High water needs in drought-prone region. Conservation is critical!";
        scenario_location := {| lat := 39.0; lon := -121.5 |};
        optimal := {| Decision.irrigation := 80; Decision.fertilizer := 45 |} |}) ].

(** [NASADataFetcher._get_sample_data]: the four comprehensions run in
    the order they are written and share the generator. *)
Definition _get_sample_data (today : Z) (days : nat) (g : RandomState)
  : parameter * RandomState :=
  let dates := date_range today days in
  let '(t2m, g) :=
    random_comprehension (fun i r => 20 + imod i 10 + r * 3)%Q 0 dates g in
  let '(prec, g) :=
    random_comprehension (fun i r => 2.5 + imod i 5 + r)%Q 0 dates g in
  let '(gwet, g) :=
    random_comprehension (fun i r => 0.3 + imod i 3 * 0.1 + r * 0.1)%Q 0 dates g in
  let '(sw, g) :=
    random_comprehension (fun i r => 5.5 + r)%Q 0 dates g in
  ({| T2M := t2m; PRECTOTCORR := prec; GWETROOT := gwet;
      ALLSKY_SFC_SW_DWN := sw |}, g).

Record FarmingSimulator : Type := {
  scenario : scenario_data;
  nasa_data : option parameter;
  decisions : decision
}.

Definition init (scenario_data : scenario_data) : FarmingSimulator :=
  {| scenario := scenario_data;
     nasa_data := None;
     decisions := {| Decision.irrigation := 50; Decision.fertilizer := 50 |} |}.

(** [NASADataFetcher]: its only field is the cache, a dict from the key
    string to the response stored under it. *)
Record NASADataFetcher : Type := {
  cache : gmap string parameter
}.

Definition new_fetcher : NASADataFetcher := {| cache := ∅ |}.

(** [f"{lat}_{lon}_{days}"]; [str] is how an f-string renders a float. *)
Definition cache_key (str : Q -> string) (lat lon : Q) (days : nat) : string :=
  str lat +:+ "_" +:+ str lon +:+ "_" +:+ pretty days.

(** [get_climate_data].  [response] is what the request inside [try]
    comes to: the parsed body, taken to have the documented shape, or [None]
    when anything in the [try] block raises.  A cached response is returned
    before any request is made; a fresh one is cached; the fallback is
    returned without being cached. *)
Definition get_climate_data (str : Q -> string) (self : NASADataFetcher)
    (lat lon : Q) (days : nat) (response : option parameter) (today : Z)
    (g : RandomState) : parameter * NASADataFetcher * RandomState :=
  let cache_key := cache_key str lat lon days in
  match cache self !! cache_key with
  | Some data => (data, self, g)
  | None =>
      match response with
      | Some data =>
          (data, {| cache := <[cache_key := data]> (cache self) |}, g)
      | None =>
          let '(data, g) := _get_sample_data today days g in
          (data, self, g)
      end
  end.

(** [load_nasa_data]: the scenario's coordinates, the default of 30 days. *)
Definition load_nasa_data (str : Q -> string) (self : FarmingSimulator)
    (fetcher : NASADataFetcher) (response : option parameter) (today : Z)
    (g : RandomState) : FarmingSimulator * NASADataFetcher * RandomState :=
  let loc := scenario_location (scenario self) in
  let '(data, fetcher, g) :=
    get_climate_data str fetcher (lat loc) (lon loc) 30 response today g in
  ({| scenario := scenario self; nasa_data := Some data;
      decisions := decisions self |}, fetcher, g).

(** The non-empty dict [analyze_conditions] returns. *)
Record analysis : Type := {
  avg_temperature : Q;
  avg_precipitation : Q;
  avg_soil_moisture : Q;
  temp_data : list Q;
  precip_data : list Q;
  soil_data : list Q
}.

(** [analyze_conditions]: [None] is the empty dict returned when no data is
    loaded. *)
Definition analyze_conditions (self : FarmingSimulator)
  : result (option analysis) :=
  match nasa_data self with
  | None => Return None
  | Some params =>
      let temps := values (T2M params) in
      let precip := values (PRECTOTCORR params) in
      let soil := values (GWETROOT params) in
      t ← mean temps;
      p ← mean precip;
      s ← mean soil;
      Return (Some {| avg_temperature := py_round t 1;
                      avg_precipitation := py_round p 2;
                      avg_soil_moisture := py_round s 2;
                      temp_data := take 10 temps;
                      precip_data := take 10 precip;
                      soil_data := take 10 soil |})
  end.

Definition LOW_SOIL : string :=
  "⚠️ Low soil moisture detected - consider increasing irrigation".
Definition LOW_RAIN : string :=
  "☀️ Low rainfall period - crops may need supplemental water".
Definition HIGH_TEMP : string :=
  "🌡️ High temperatures - increase irrigation to compensate".
Definition OVERWATER : string :=
  "💧 High moisture levels - reduce irrigation to prevent overwatering".
Definition OPTIMAL : string :=
  "✅ Conditions are optimal for current crop".

(** [recs.append(msg)] under an [if]. *)
Definition append_if (c : bool) (msg : string) (recs : list string)
  : list string :=
  if c then recs ++ [msg] else recs.

Definition generate_recommendations (a : analysis) : list string :=
  let recs := [] in
  let soil := avg_soil_moisture a in
  let precip := avg_precipitation a in
  let temp := avg_temperature a in
  let recs := append_if (Qltb soil 0.3) LOW_SOIL recs in
  let recs := append_if (Qltb precip 2.0) LOW_RAIN recs in
  let recs := append_if (Qgtb temp 30) HIGH_TEMP recs in
  let recs := append_if (Qgtb soil 0.5 && Qgtb precip 5) OVERWATER recs in
  let recs := append_if (bool_decide (recs = [])) OPTIMAL recs in
  recs.

(** The irrigation block of [calculate_yield]: [base_yield] in, [base_yield]
    out. *)
Definition irrigation_scoring (soil : Q) (irrigation : Z) (optimal : decision)
    (base_yield : Q) : Q :=
  if Qltb soil 0.3 then
    if (50 <=? irrigation)%Z then (base_yield + 15)%Q else (base_yield - 30)%Q
  else if Qgtb soil 0.5 then
    if (irrigation <=? 30)%Z then (base_yield + 20)%Q else (base_yield - 25)%Q
  else
    let irr_diff := Z.abs (irrigation - Decision.irrigation optimal) in
    (base_yield + py_max 0 (20 - inject_Z irr_diff / 2))%Q.

(** The fertilizer block. *)
Definition fertilizer_scoring (fertilizer : Z) (optimal : decision)
    (base_yield : Q) : Q :=
  let fert_diff := Z.abs (fertilizer - Decision.fertilizer optimal) in
  if (fert_diff <=? 10)%Z then (base_yield + 25)%Q
  else if (fert_diff <=? 20)%Z then (base_yield + 10)%Q
  else if (80 <? fertilizer)%Z then (base_yield - 15)%Q
  else if (fertilizer <? 20)%Z then (base_yield - 20)%Q
  else base_yield.

Definition _generate_feedback (yield_pct : Q) (a : analysis) (irr fert : Z)
  : list fstring :=
  let feedback := [] in
  let feedback :=
    feedback ++
    [ if Qgtb yield_pct 120 then
        [Text "🎉 Outstanding! You mastered NASA data interpretation!"]
      else if Qgtb yield_pct 100 then
        [Text "✅ Excellent work! Your decisions were well-informed."]
      else if Qgtb yield_pct 85 then
        [Text "👍 Good job! Some room for optimization."]
      else
        [Text "📚 Review the NASA data more carefully next time."] ] in
  feedback ++
  [ [Text "
NASA Data Summary:"];
    [Text "• Avg Temperature: "; Float (avg_temperature a); Text "°C"];
    [Text "• Avg Soil Moisture: "; Float (avg_soil_moisture a)];
    [Text "• Avg Precipitation: "; Float (avg_precipitation a); Text " mm/day"];
    [Text "
Your Decisions:"];
    [Text "• Irrigation: "; Int irr; Text " units"];
    [Text "• Fertilizer: "; Int fert; Text " units"] ].

(** The dict [calculate_yield] returns; [feedback] holds the lines that the
    code joins with a newline. *)
Record yield_result : Type := {
  yield : Q;
  water_usage : Z;
  fert_cost : Z;
  feedback : list fstring
}.

(** [calculate_yield] from the point where [analysis] is in hand. *)
Definition score (a : analysis) (optimal : decision) (irrigation fertilizer : Z)
  : yield_result :=
  let base_yield := 100%Q in
  let soil := avg_soil_moisture a in
  let base_yield := irrigation_scoring soil irrigation optimal base_yield in
  let base_yield := fertilizer_scoring fertilizer optimal base_yield in
  let yield_pct := py_max 0 (py_min 150 base_yield) in
  let water_usage := (irrigation * 10)%Z in
  let fert_cost := (fertilizer * 5)%Z in
  let feedback := _generate_feedback yield_pct a irrigation fertilizer in
  {| yield := yield_pct; water_usage := water_usage; fert_cost := fert_cost;
     feedback := feedback |}.

Definition calculate_yield (self : FarmingSimulator) (irrigation fertilizer : Z)
  : result yield_result :=
  a ← analyze_conditions self;
  match a with
  | None => Raise (KeyError "avg_soil_moisture")
  | Some a => Return (score a (optimal (scenario self)) irrigation fertilizer)
  end.

End App.

(** * [game_engine.py] *)

Module GameEngine.

(** [NASADataFetcher._get_sample_data]: thirty days, no generator. *)
Definition _get_sample_data (today : Z) : parameter :=
  let dates := date_range today 30 in
  {| T2M := comprehension (fun i => 20 + imod i 10)%Q dates;
     PRECTOTCORR := comprehension (fun i => 2.5 + imod i 5)%Q dates;
     GWETROOT := comprehension (fun i => 0.3 + imod i 3 * 0.1)%Q dates;
     ALLSKY_SFC_SW_DWN := comprehension (fun _ => 5.5)%Q dates |}.

Record location : Type := { lat : Q; lon : Q; name : string }.

(** [self.decisions]; [planting_date] stays [None] throughout. *)
Record decisions_dict : Type := {
  irrigation : Z;
  fertilizer : Z;
  planting_date : option Z
}.

Record FarmingSimulator : Type := {
  crop_type : string;
  farm_location : location;
  nasa_data : option parameter;
  decisions : decisions_dict;
  crop_health : Z;
  water_usage : Z;
  fertilizer_cost : Z
}.

Definition init (crop_type : string) (location : location) : FarmingSimulator :=
  {| crop_type := crop_type;
     farm_location := location;
     nasa_data := None;
     decisions := {| irrigation := 0; fertilizer := 0; planting_date := None |};
     crop_health := 100;
     water_usage := 0;
     fertilizer_cost := 0 |}.

(** The two keys the interface records a decision under. *)
Inductive decision_type : Type := Irrigation | Fertilizer.

Definition make_decision (self : FarmingSimulator) (k : decision_type)
    (value : Z) : FarmingSimulator :=
  let d := decisions self in
  let d :=
    match k with
    | Irrigation => {| irrigation := value; fertilizer := fertilizer d;
                       planting_date := planting_date d |}
    | Fertilizer => {| irrigation := irrigation d; fertilizer := value;
                       planting_date := planting_date d |}
    end in
  {| crop_type := crop_type self; farm_location := farm_location self;
     nasa_data := nasa_data self; decisions := d;
     crop_health := crop_health self; water_usage := water_usage self;
     fertilizer_cost := fertilizer_cost self |}.

Definition LOW_SOIL : string := "‚ö†Ô∏è Low soil moisture - consider irrigation".
Definition LOW_RAIN : string := "‚òÄÔ∏è Low rainfall - monitor water needs".
Definition HIGH_TEMP : string :=
  "üå°Ô∏è High temperatures - crops may need extra water".
Definition OVERWATER : string :=
  "üíß High moisture - reduce irrigation to avoid overwatering".
Definition OPTIMAL : string := "‚úÖ Conditions are optimal".

Definition _generate_recommendation (temp precip soil : Q) : list string :=
  let recommendations := [] in
  let recommendations :=
    if Qltb soil 0.3 then recommendations ++ [LOW_SOIL] else recommendations in
  let recommendations :=
    if Qltb precip 2.0 then recommendations ++ [LOW_RAIN] else recommendations in
  let recommendations :=
    if Qgtb temp 30 then recommendations ++ [HIGH_TEMP] else recommendations in
  let recommendations :=
    if Qgtb soil 0.5 && Qgtb precip 5
    then recommendations ++ [OVERWATER] else recommendations in
  match recommendations with
  | [] => [OPTIMAL]
  | _ => recommendations
  end.

Record analysis : Type := {
  avg_temperature : Q;
  avg_precipitation : Q;
  avg_soil_moisture : Q;
  recommendation : list string
}.

Definition analyze_conditions (self : FarmingSimulator)
  : result (option analysis) :=
  match nasa_data self with
  | None => Return None
  | Some params =>
      let temps := values (T2M params) in
      let precip := values (PRECTOTCORR params) in
      let soil_moisture := values (GWETROOT params) in
      avg_temp ← mean temps;
      avg_precip ← mean precip;
      avg_soil ← mean soil_moisture;
      Return (Some {| avg_temperature := py_round avg_temp 1;
                      avg_precipitation := py_round avg_precip 2;
                      avg_soil_moisture := py_round avg_soil 2;
                      recommendation :=
                        _generate_recommendation avg_temp avg_precip avg_soil |})
  end.

Definition _generate_feedback (yield_pct : Z) (a : analysis) : list fstring :=
  [ if (110 <? yield_pct)%Z then
      [Text "üéâ Excellent! You used NASA data effectively!"]
    else if (90 <? yield_pct)%Z then
      [Text "üëç Good job! Your decisions aligned with the data."]
    else
      [Text "üìö Review the NASA data - it shows important patterns."];
    [Text "Avg Temperature: "; Float (avg_temperature a); Text "¬∞C"];
    [Text "Avg Soil Moisture: "; Float (avg_soil_moisture a)] ].

Definition irrigation_scoring (soil_moisture : Q) (irrigation : Z)
    (base_yield : Z) : Z :=
  if Qltb soil_moisture 0.3 then
    if (50 <=? irrigation)%Z then (base_yield + 10)%Z else (base_yield - 30)%Z
  else if Qgtb soil_moisture 0.5 then
    if (irrigation <=? 30)%Z then (base_yield + 15)%Z else (base_yield - 20)%Z
  else base_yield.

Definition fertilizer_scoring (fertilizer : Z) (base_yield : Z) : Z :=
  if (40 <=? fertilizer)%Z && (fertilizer <=? 60)%Z then (base_yield + 20)%Z
  else if (80 <? fertilizer)%Z then (base_yield - 10)%Z
  else if (fertilizer <? 20)%Z then (base_yield - 15)%Z
  else base_yield.

(** [calculate_yield] returns the pair [(yield, feedback)] and leaves the
    costs in [self]; the updated [self] is the third component. *)
Definition calculate_yield (self : FarmingSimulator)
  : result (Z * list fstring * FarmingSimulator) :=
  match nasa_data self with
  | None => Return (0%Z, [[Text "No data available"]], self)
  | Some _ =>
      a ← analyze_conditions self;
      match a with
      | None => Raise (KeyError "avg_soil_moisture")
      | Some a =>
          let base_yield := 100%Z in
          let soil_moisture := avg_soil_moisture a in
          let irrigation := irrigation (decisions self) in
          let base_yield := irrigation_scoring soil_moisture irrigation base_yield in
          let fertilizer := fertilizer (decisions self) in
          let base_yield := fertilizer_scoring fertilizer base_yield in
          let self :=
            {| crop_type := crop_type self; farm_location := farm_location self;
               nasa_data := nasa_data self; decisions := decisions self;
               crop_health := crop_health self;
               water_usage := (irrigation * 10)%Z;
               fertilizer_cost := (fertilizer * 5)%Z |} in
          let feedback := _generate_feedback base_yield a in
          Return (py_maxZ 0 (py_minZ 150 base_yield), feedback, self)
      end
  end.

End GameEngine.

(** * [pygame_game.py] *)

Module Pygame.

(** The content file [game_content.json], by the keys the game reads. *)
Record solution : Type := {
  title : string;
  cost : Z;
  effect : gmap string Z
}.

Record card : Type := {
  card_title : string;
  card_description : string;
  solutions : list solution
}.

Record asset : Type := {
  id : string;
  asset_name : string;
  asset_description : string;
  asset_cost : Z;
  income_boost : option Z
}.

Record tile : Type := {
  tile_name : string;
  type : string
}.

Record game_data : Type := {
  board_tiles : list tile;
  problem_cards : list card;
  assets : list asset
}.

(** A player's dict; [owned] is its ["assets"] list. *)
Record player : Type := {
  name : string;
  position : Z;
  cash : Z;
  sustainability : Z;
  owned : list string
}.

(** [self.state], the document kept in [game_state.json]. *)
Record state : Type := {
  current_player : nat;
  players : list player;
  game_state : string;
  dice_value : Z;
  current_card : option card;
  selected_solution : option solution;
  last_update : option string
}.

(** The state [load_state] falls back to. *)
Definition initial_state : state :=
  {| current_player := 0;
     players :=
       [ {| name := "Player 1"; position := 0; cash := 10000;
            sustainability := 7; owned := [] |};
         {| name := "Player 2"; position := 0; cash := 10000;
            sustainability := 7; owned := [] |} ];
     game_state := "ROLL";
     dice_value := 0;
     current_card := None;
     selected_solution := None;
     last_update := None |}.

(** Field updates of the two mutable dicts. *)
Definition set_cash (p : player) (v : Z) : player :=
  {| name := name p; position := position p; cash := v;
     sustainability := sustainability p; owned := owned p |}.
Definition set_sustainability (p : player) (v : Z) : player :=
  {| name := name p; position := position p; cash := cash p;
     sustainability := v; owned := owned p |}.
Definition set_position (p : player) (v : Z) : player :=
  {| name := name p; position := v; cash := cash p;
     sustainability := sustainability p; owned := owned p |}.
Definition set_owned (p : player) (v : list string) : player :=
  {| name := name p; position := position p; cash := cash p;
     sustainability := sustainability p; owned := v |}.

Definition set_players (st : state) (v : list player) : state :=
  {| current_player := current_player st; players := v;
     game_state := game_state st; dice_value := dice_value st;
     current_card := current_card st;
     selected_solution := selected_solution st;
     last_update := last_update st |}.
Definition set_current_player (st : state) (v : nat) : state :=
  {| current_player := v; players := players st;
     game_state := game_state st; dice_value := dice_value st;
     current_card := current_card st;
     selected_solution := selected_solution st;
     last_update := last_update st |}.
Definition set_game_state (st : state) (v : string) : state :=
  {| current_player := current_player st; players := players st;
     game_state := v; dice_value := dice_value st;
     current_card := current_card st;
     selected_solution := selected_solution st;
     last_update := last_update st |}.
Definition set_dice_value (st : state) (v : Z) : state :=
  {| current_player := current_player st; players := players st;
     game_state := game_state st; dice_value := v;
     current_card := current_card st;
     selected_solution := selected_solution st;
     last_update := last_update st |}.
Definition set_current_card (st : state) (v : option card) : state :=
  {| current_player := current_player st; players := players st;
     game_state := game_state st; dice_value := dice_value st;
     current_card := v;
     selected_solution := selected_solution st;
     last_update := last_update st |}.
Definition set_last_update (st : state) (v : option string) : state :=
  {| current_player := current_player st; players := players st;
     game_state := game_state st; dice_value := dice_value st;
     current_card := current_card st;
     selected_solution := selected_solution st;
     last_update := v |}.

(** [self.state["players"][self.state["current_player"]]]: the dict of
    the acting player, shared with the list it sits in. *)
Definition acting_player (st : state) : result player :=
  match players st !! current_player st with
  | Some p => Return p
  | None => Raise IndexError
  end.

(** A write through that shared dict. *)
Definition store_player (st : state) (p : player) : state :=
  set_players st (<[current_player st := p]> (players st)).

(** [save_state]: stamps the document with the clock's reading and writes
    it out. *)
Definition save_state (st : state) (now : string) : state :=
  set_last_update st (Some now).

Definition end_turn (st : state) (now : string) : result state :=
  match players st with
  | [] => Raise ZeroDivisionError
  | _ =>
      let n := Z.of_nat (length (players st)) in
      let next := ((Z.of_nat (current_player st) + 1) mod n)%Z in
      Return (save_state (set_current_player st (Z.to_nat next)) now)
  end.

Definition select_solution (st : state) (solution : solution) (now : string)
  : result state :=
  player ← acting_player st;
  if (cost solution <=? cash player)%Z then
    let player := set_cash player (cash player - cost solution)%Z in
    let player :=
      match effect solution !! "sustainability_change" with
      | Some change =>
          set_sustainability player
            (py_maxZ 1 (py_minZ 10 (sustainability player + change)%Z))
      | None => player
      end in
    let st := store_player st player in
    let st := set_game_state st "ROLL" in
    let st := set_current_card st None in
    end_turn st now
  else Return st.

Definition buy_asset (st : state) (a : asset) (now : string) : result state :=
  player ← acting_player st;
  let player := set_cash player (cash player - asset_cost a)%Z in
  let player := set_owned player (owned player ++ [id a]) in
  let player := set_cash player (cash player + default 0%Z (income_boost a))%Z in
  let st := store_player st player in
  let st := set_game_state st "ROLL" in
  end_turn st now.

(** The game object: the content, the shared document and the fields of
    the dice animation. *)
Record HarvestHorizonGame : Type := {
  content : game_data;
  document : state;
  self_dice_value : Z;
  is_rolling : bool;
  roll_start_time : Z;
  rolling_dice : Z
}.

(** [roll_dice], [ticks] being [pygame.time.get_ticks()]. *)
Definition roll_dice (self : HarvestHorizonGame) (ticks : Z)
  : HarvestHorizonGame :=
  {| content := content self; document := document self;
     self_dice_value := self_dice_value self;
     is_rolling := true; roll_start_time := ticks; rolling_dice := 1 |}.

(** The income of a field tile: the two nested loops over the player's
    asset ids and the catalogue. *)
Definition field_income (owned_ids : list string) (catalogue : list asset) : Z :=
  foldl (fun income aid =>
           foldl (fun income a =>
                    if bool_decide (id a = aid)
                    then (income + default 0 (income_boost a))%Z
                    else income)
                 income catalogue)
        500%Z owned_ids.

(** [update]: [ticks] is the clock, [rolled] what [random.randint(1, 6)]
    gives and [pick] the index [random.choice] draws. *)
Definition update (self : HarvestHorizonGame) (ticks rolled : Z) (pick : nat)
    (now : string) : result HarvestHorizonGame :=
  if is_rolling self && (1000 <? ticks - roll_start_time self)%Z then
    let st := set_dice_value (document self) rolled in
    player ← acting_player st;
    let tiles := board_tiles (content self) in
    match tiles with
    | [] => Raise ZeroDivisionError
    | _ =>
        let player :=
          set_position player
            ((position player + rolled) mod Z.of_nat (length tiles))%Z in
        let st := store_player st player in
        match tiles !! Z.to_nat (position player) with
        | None => Raise IndexError
        | Some tile =>
            st ←
              (if bool_decide (type tile = "event") then
                 match problem_cards (content self) !! pick with
                 | None => Raise IndexError
                 | Some c =>
                     Return (set_game_state (set_current_card st (Some c)) "CARD")
                 end
               else if bool_decide (type tile = "shop") then
                 Return (set_game_state st "SHOP")
               else
                 let income :=
                   field_income (owned player) (assets (content self)) in
                 let player := set_cash player (cash player + income)%Z in
                 end_turn (store_player st player) now);
            Return {| content := content self;
                      document := save_state st now;
                      self_dice_value := rolled;
                      is_rolling := false;
                      roll_start_time := roll_start_time self;
                      rolling_dice := rolling_dice self |}
        end
    end
  else Return self.

End Pygame.

(** * Vocabulary of the properties *)

(** What one rule contributes on its own. *)
Definition warning (fires : bool) (msg : string) : list string :=
  if fires then [msg] else [].

(** The four rules as independent blocks in their fixed order. *)
Definition fired (soil precip temp : Q) : list string :=
  warning (Qltb soil 0.3) App.LOW_SOIL ++
  warning (Qltb precip 2.0) App.LOW_RAIN ++
  warning (Qgtb temp 30) App.HIGH_TEMP ++
  warning (Qgtb soil 0.5 && Qgtb precip 5) App.OVERWATER.

(** The wording [game_engine.py] uses for each message of [app.py]. *)
Definition engine_wording (msg : string) : string :=
  if bool_decide (msg = App.LOW_SOIL) then GameEngine.LOW_SOIL
  else if bool_decide (msg = App.LOW_RAIN) then GameEngine.LOW_RAIN
  else if bool_decide (msg = App.HIGH_TEMP) then GameEngine.HIGH_TEMP
  else if bool_decide (msg = App.OVERWATER) then GameEngine.OVERWATER
  else GameEngine.OPTIMAL.

(** The summary with soil moisture 0.25, precipitation 1.5 and temperature
    32. *)
Definition dry_hot_summary : App.analysis :=
  {| App.avg_temperature := 32; App.avg_precipitation := 1.5;
     App.avg_soil_moisture := 0.25;
     App.temp_data := []; App.precip_data := []; App.soil_data := [] |}.

(** A simulator on the wheat scenario (optimal irrigation 45, fertilizer
    50) whose one-day series averages to that summary. *)
Definition dry_hot_farm : App.FarmingSimulator :=
  {| App.scenario :=
       {| App.name := "🌾 Wheat Farm - Kansas, USA"; App.difficulty := "Easy";
          App.description := "Moderate climate with variable rainfall. Learn basic soil moisture monitoring.";
          App.scenario_location := {| App.lat := 37.5; App.lon := -95.5 |};
          App.optimal := {| Decision.irrigation := 45; Decision.fertilizer := 50 |} |};
     App.nasa_data :=
       Some {| T2M := [(0%Z, 32%Q)]; PRECTOTCORR := [(0%Z, 1.5%Q)];
               GWETROOT := [(0%Z, 0.25%Q)]; ALLSKY_SFC_SW_DWN := [(0%Z, 6%Q)] |};
     App.decisions := {| Decision.irrigation := 50; Decision.fertilizer := 50 |} |}.

(** A response with nothing in it, loaded into each simulator. *)
Definition empty_response : parameter :=
  {| T2M := []; PRECTOTCORR := []; GWETROOT := []; ALLSKY_SFC_SW_DWN := [] |}.

Definition empty_farm : App.FarmingSimulator :=
  {| App.scenario := App.scenario dry_hot_farm;
     App.nasa_data := Some empty_response;
     App.decisions := App.decisions dry_hot_farm |}.

Definition empty_engine_farm : GameEngine.FarmingSimulator :=
  {| GameEngine.crop_type := "wheat";
     GameEngine.farm_location :=
       {| GameEngine.lat := 37.5; GameEngine.lon := -95.5;
          GameEngine.name := "Kansas, USA" |};
     GameEngine.nasa_data := Some empty_response;
     GameEngine.decisions :=
       {| GameEngine.irrigation := 0; GameEngine.fertilizer := 0;
          GameEngine.planting_date := None |};
     GameEngine.crop_health := 100;
     GameEngine.water_usage := 0;
     GameEngine.fertilizer_cost := 0 |}.

(** [min(xs)] and [max(xs)] of a non-empty list. *)
Definition minimum (xs : list Q) : Q :=
  match xs with
  | [] => 0%Q
  | x :: xs => foldl py_min x xs
  end.

Definition maximum (xs : list Q) : Q :=
  match xs with
  | [] => 0%Q
  | x :: xs => foldl py_max x xs
  end.





(** The dates each of the four variables is keyed by. *)
Definition dates_of (p : parameter) : list (list Z) :=
  [ (T2M p).*1; (PRECTOTCORR p).*1; (GWETROOT p).*1; (ALLSKY_SFC_SW_DWN p).*1 ].

(** Two states of the generator: one about to hand out zeros, one about
    to hand out halves. *)
Definition zeros : RandomState := {| draws := fun _ => 0%Q; drawn := 0 |}.
Definition halves : RandomState := {| draws := fun _ => (1 # 2)%Q; drawn := 0 |}.

(** The sustainability scores around the table, in seating order. *)
Definition scores (st : Pygame.state) : list Z :=
  Pygame.sustainability <$> Pygame.players st.

(** A card that costs 500 and raises sustainability by 5. *)
Definition cover_crops : Pygame.solution :=
  {| Pygame.title := "Plant cover crops"; Pygame.cost := 500;
     Pygame.effect := {[ "sustainability_change" := 5%Z ]} |}.

(** A summary in the middle of the soil-moisture band. *)
Definition mild_summary : App.analysis :=
  {| App.avg_temperature := 24.5; App.avg_precipitation := 4.5;
     App.avg_soil_moisture := 0.4;
     App.temp_data := []; App.precip_data := []; App.soil_data := [] |}.

(** The simulator with its two cost fields set. *)
Definition with_costs (self : GameEngine.FarmingSimulator) (water cost : Z)
  : GameEngine.FarmingSimulator :=
  {| GameEngine.crop_type := GameEngine.crop_type self;
     GameEngine.farm_location := GameEngine.farm_location self;
     GameEngine.nasa_data := GameEngine.nasa_data self;
     GameEngine.decisions := GameEngine.decisions self;
     GameEngine.crop_health := GameEngine.crop_health self;
     GameEngine.water_usage := water;
     GameEngine.fertilizer_cost := cost |}.

(** A simulator of [game_engine.py] holding its own fallback data, with an
    irrigation of 60 and a fertilizer of 50 decided. *)
Definition engine_farm : GameEngine.FarmingSimulator :=
  {| GameEngine.crop_type := "wheat";
     GameEngine.farm_location :=
       {| GameEngine.lat := 37.5; GameEngine.lon := -95.5;
          GameEngine.name := "Kansas, USA" |};
     GameEngine.nasa_data := Some (GameEngine._get_sample_data 0);
     GameEngine.decisions :=
       {| GameEngine.irrigation := 60; GameEngine.fertilizer := 50;
          GameEngine.planting_date := None |};
     GameEngine.crop_health := 100;
     GameEngine.water_usage := 0;
     GameEngine.fertilizer_cost := 0 |}.

(** [k] calls of [end_turn] in a row. *)
Fixpoint end_turns (k : nat) (st : Pygame.state) (now : string)
  : result Pygame.state :=
  match k with
  | O => Return st
  | S k => st ← Pygame.end_turn st now; end_turns k st now
  end.

(** The boosts the catalogue lists under one asset id. *)
Definition boosts (aid : string) (catalogue : list Pygame.asset) : list Z :=
  (fun a => default 0%Z (Pygame.income_boost a)) <$>
  filter (fun a => Pygame.id a = aid) catalogue.

Definition sumZ (l : list Z) : Z := foldr Z.add 0%Z l.

(** * Properties *)

(** ** Numbers *)

Lemma Qltb_true (x y : Q) : Qltb x y = true <-> (x < y)%Q.
Proof.
  unfold Qltb. rewrite negb_true_iff, <- not_true_iff_false, Qle_bool_iff.
  split; [apply Qnot_le_lt | apply Qlt_not_le].
Qed.

Lemma Qltb_false (x y : Q) : Qltb x y = false <-> (y <= x)%Q.
Proof.
  unfold Qltb. rewrite negb_false_iff, Qle_bool_iff. reflexivity.
Qed.

Lemma Qltb_spec (x y : Q) : reflect (x < y)%Q (Qltb x y).
Proof.
  destruct (Qltb x y) eqn:E; constructor.
  - now apply Qltb_true.
  - apply Qltb_false in E. now apply Qle_not_lt.
Qed.

Lemma Qgtb_spec (x y : Q) : reflect (y < x)%Q (Qgtb x y).
Proof. apply Qltb_spec. Qed.

(** Case analysis on every comparison a goal branches on. *)
Ltac by_cases :=
  unfold Qgtb in *;
  repeat match goal with
    | |- context [Qltb ?x ?y] =>
        let E := fresh "E" in
        destruct (Qltb x y) eqn:E;
        [apply Qltb_true in E | apply Qltb_false in E]
    | H : context [Qltb ?x ?y] |- _ =>
        let E := fresh "E" in
        destruct (Qltb x y) eqn:E;
        [apply Qltb_true in E | apply Qltb_false in E]
    | |- context [(?x <=? ?y)%Z] => destruct (Z.leb_spec x y)
    | |- context [(?x <? ?y)%Z] => destruct (Z.ltb_spec x y)
    end.

Lemma py_max_Qmax (a b : Q) : (py_max a b == Qmax a b)%Q.
Proof.
  unfold py_max. destruct (Qgtb_spec b a) as [H | H].
  - symmetry. apply Q.max_r. now apply Qlt_le_weak.
  - symmetry. apply Q.max_l. now apply Qnot_lt_le.
Qed.

Lemma py_min_Qmin (a b : Q) : (py_min a b == Qmin a b)%Q.
Proof.
  unfold py_min. destruct (Qltb_spec b a) as [H | H].
  - symmetry. apply Q.min_r. now apply Qlt_le_weak.
  - symmetry. apply Q.min_l. now apply Qnot_lt_le.
Qed.

Lemma clamp_bounds (lo hi x : Q) :
  (lo <= hi)%Q -> (lo <= py_max lo (py_min hi x) <= hi)%Q.
Proof.
  intros Hle. unfold py_max, py_min. by_cases; split; lra.
Qed.

Lemma clamp_id (lo hi x : Q) :
  (lo <= x <= hi)%Q -> (py_max lo (py_min hi x) == x)%Q.
Proof.
  intros [H1 H2]. unfold py_max, py_min. by_cases; lra.
Qed.

Lemma clampZ_bounds (lo hi x : Z) :
  (lo <= hi)%Z -> (lo <= py_maxZ lo (py_minZ hi x) <= hi)%Z.
Proof.
  intros Hle. unfold py_maxZ, py_minZ.
  destruct (Z.ltb_spec x hi);
    [destruct (Z.ltb_spec lo x) | destruct (Z.ltb_spec lo hi)]; lia.
Qed.

(** ** The scoring engine of [app.py] *)

(** The yield is the clamped result of running the two scoring blocks on
    the base of 100. *)
Lemma app_score_yield (a : App.analysis) (optimal : decision)
    (irrigation fertilizer : Z) :
  App.yield (App.score a optimal irrigation fertilizer) =
  py_max 0 (py_min 150
    (App.fertilizer_scoring fertilizer optimal
       (App.irrigation_scoring (App.avg_soil_moisture a) irrigation optimal 100))).
Proof. reflexivity. Qed.

(** C1.  The irrigation block adds to the running yield a term fixed by
    the soil-moisture regime: below 0.3 it is +15 for an irrigation of at
    least 50 and -30 otherwise; above 0.5 it is +20 for an irrigation of at
    most 30 and -25 otherwise; from 0.3 to 0.5 inclusive it is
    max(0, 20 - |irrigation - optimal irrigation| / 2).  This holds for
    every summary and every decision, in the slider range or not. *)
Theorem app_irrigation_term (a : App.analysis) (optimal : decision)
    (irrigation : Z) (base_yield : Q) :
  let soil := App.avg_soil_moisture a in
  let term :=
    (App.irrigation_scoring soil irrigation optimal base_yield - base_yield)%Q in
  ((soil < 0.3)%Q -> (50 <= irrigation)%Z -> (term == 15)%Q) /\
  ((soil < 0.3)%Q -> (irrigation < 50)%Z -> (term == -30)%Q) /\
  ((0.5 < soil)%Q -> (irrigation <= 30)%Z -> (term == 20)%Q) /\
  ((0.5 < soil)%Q -> (30 < irrigation)%Z -> (term == -25)%Q) /\
  ((0.3 <= soil <= 0.5)%Q ->
   (term ==
    Qmax 0 (20 - inject_Z (Z.abs (irrigation - Decision.irrigation optimal)) / 2))%Q).
Proof.
  intros soil term. subst term. unfold App.irrigation_scoring.
  repeat split; intros; by_cases; try lia; try lra.
  rewrite py_max_Qmax. ring.
Qed.

(** C2.  The fertilizer block is a first-match chain on
    fertDiff = |fertilizer - optimal fertilizer|: +25 when fertDiff <= 10;
    otherwise +10 when fertDiff <= 20; otherwise -15 when fertilizer > 80;
    otherwise -20 when fertilizer < 20; otherwise nothing. *)
Theorem app_fertilizer_term (optimal : decision) (fertilizer : Z)
    (base_yield : Q) :
  let fertDiff := Z.abs (fertilizer - Decision.fertilizer optimal) in
  let term :=
    (App.fertilizer_scoring fertilizer optimal base_yield - base_yield)%Q in
  ((fertDiff <= 10)%Z -> (term == 25)%Q) /\
  ((10 < fertDiff <= 20)%Z -> (term == 10)%Q) /\
  ((20 < fertDiff)%Z -> (80 < fertilizer)%Z -> (term == -15)%Q) /\
  ((20 < fertDiff)%Z -> (fertilizer <= 80)%Z -> (fertilizer < 20)%Z ->
   (term == -20)%Q) /\
  ((20 < fertDiff)%Z -> (20 <= fertilizer <= 80)%Z -> (term == 0)%Q).
Proof.
  intros fertDiff term. subst fertDiff term. unfold App.fertilizer_scoring.
  repeat split; intros; by_cases; try lia; try lra.
Qed.

(** C3.  The yield percent lies in [0, 150]: the base of 100 plus the two
    signed adjustments goes through max(0, min(150, _)).  The bound needs
    nothing of the decision, so it covers the slider range [0, 100]; it holds
    for the summary-level function, for [calculate_yield] whenever it
    returns, and for the variant of [game_engine.py]. *)
Theorem yield_clamped :
  (forall (a : App.analysis) (optimal : decision) (irrigation fertilizer : Z),
     (0 <= App.yield (App.score a optimal irrigation fertilizer) <= 150)%Q) /\
  (forall (self : App.FarmingSimulator) (irrigation fertilizer : Z),
     match App.calculate_yield self irrigation fertilizer with
     | Return r => (0 <= App.yield r <= 150)%Q
     | Raise _ => True
     end) /\
  (forall self : GameEngine.FarmingSimulator,
     match GameEngine.calculate_yield self with
     | Return (yield_pct, _, _) => (0 <= yield_pct <= 150)%Z
     | Raise _ => True
     end).
Proof.
  split; [| split].
  - intros. rewrite app_score_yield. now apply clamp_bounds.
  - intros. unfold App.calculate_yield.
    destruct (App.analyze_conditions self) as [[a |] | e];
      cbv [mbind result_bind]; trivial.
    rewrite app_score_yield. now apply clamp_bounds.
  - intros. unfold GameEngine.calculate_yield.
    destruct (GameEngine.nasa_data self); [| simpl; lia].
    destruct (GameEngine.analyze_conditions self) as [[a |] | e];
      cbv [mbind result_bind]; trivial.
    now apply clampZ_bounds.
Qed.

(** ** Recommendations *)

Lemma append_if_warning (c : bool) (msg : string) (recs : list string) :
  App.append_if c msg recs = recs ++ warning c msg.
Proof. destruct c; simpl; [reflexivity | now rewrite app_nil_r]. Qed.

Lemma app_recommendations_fired (a : App.analysis) :
  App.generate_recommendations a =
  match fired (App.avg_soil_moisture a) (App.avg_precipitation a)
          (App.avg_temperature a) with
  | [] => [App.OPTIMAL]
  | recs => recs
  end.
Proof.
  unfold App.generate_recommendations, fired.
  rewrite !append_if_warning.
  destruct (Qltb _ 0.3), (Qltb _ 2.0), (Qgtb _ 30),
    (Qgtb (App.avg_soil_moisture a) 0.5 && Qgtb _ 5); reflexivity.
Qed.

Lemma app_messages_distinct :
  NoDup [App.LOW_SOIL; App.LOW_RAIN; App.HIGH_TEMP; App.OVERWATER; App.OPTIMAL].
Proof. apply (bool_decide_unpack _). vm_compute. exact I. Qed.

Lemma fired_nil (soil precip temp : Q) :
  fired soil precip temp = [] <->
  Qltb soil 0.3 = false /\ Qltb precip 2.0 = false /\ Qgtb temp 30 = false /\
  Qgtb soil 0.5 && Qgtb precip 5 = false.
Proof.
  unfold fired.
  destruct (Qltb soil 0.3), (Qltb precip 2.0), (Qgtb temp 30),
    (Qgtb soil 0.5 && Qgtb precip 5); simpl; intuition discriminate.
Qed.

Lemma fired_sublist (soil precip temp : Q) :
  fired soil precip temp `sublist_of`
  [App.LOW_SOIL; App.LOW_RAIN; App.HIGH_TEMP; App.OVERWATER].
Proof.
  unfold fired.
  destruct (Qltb soil 0.3), (Qltb precip 2.0), (Qgtb temp 30),
    (Qgtb soil 0.5 && Qgtb precip 5); simpl; repeat constructor.
Qed.

(** C4.  [generate_recommendations] runs its four rules independently and
    in the fixed order low moisture, low rainfall, high temperature,
    overwatering risk: a warning is in the output exactly when its own
    condition holds, the output keeps the warnings in that order, and it is
    the single "conditions optimal" message exactly when no rule fires. *)
Theorem app_recommendations (a : App.analysis) :
  let soil := App.avg_soil_moisture a in
  let precip := App.avg_precipitation a in
  let temp := App.avg_temperature a in
  let recs := App.generate_recommendations a in
  (App.LOW_SOIL ∈ recs <-> (soil < 0.3)%Q) /\
  (App.LOW_RAIN ∈ recs <-> (precip < 2.0)%Q) /\
  (App.HIGH_TEMP ∈ recs <-> (30 < temp)%Q) /\
  (App.OVERWATER ∈ recs <-> (0.5 < soil)%Q /\ (5 < precip)%Q) /\
  (recs `sublist_of` [App.LOW_SOIL; App.LOW_RAIN; App.HIGH_TEMP; App.OVERWATER]
   \/ recs = [App.OPTIMAL]) /\
  (recs = [App.OPTIMAL] <->
   ~ (soil < 0.3)%Q /\ ~ (precip < 2.0)%Q /\ ~ (30 < temp)%Q /\
   ~ ((0.5 < soil)%Q /\ (5 < precip)%Q)).
Proof.
  intros soil precip temp recs. subst recs.
  rewrite app_recommendations_fired. fold soil precip temp. unfold fired.
  assert (H4 : (0.5 < soil)%Q /\ (5 < precip)%Q <->
               Qgtb soil 0.5 && Qgtb precip 5 = true).
  { rewrite andb_true_iff. unfold Qgtb. now rewrite !Qltb_true. }
  rewrite H4. clear H4.
  rewrite <- (Qltb_true soil), <- (Qltb_true precip), <- (Qltb_true 30 temp).
  fold (Qgtb temp 30).
  destruct (Qltb soil 0.3), (Qltb precip 2.0), (Qgtb temp 30),
    (Qgtb soil 0.5 && Qgtb precip 5); simpl;
    repeat match goal with |- _ /\ _ => split end;
    first [ solve [apply (bool_decide_unpack _); vm_compute; exact I]
          | solve [left; repeat constructor]
          | solve [now right] ].
Qed.

(** [game_engine.py] runs the same four rules in the same order, with its
    own wording. *)
Lemma engine_recommendations_agree (a : App.analysis) :
  GameEngine._generate_recommendation (App.avg_temperature a)
    (App.avg_precipitation a) (App.avg_soil_moisture a) =
  engine_wording <$> App.generate_recommendations a.
Proof.
  rewrite app_recommendations_fired.
  unfold GameEngine._generate_recommendation, fired.
  destruct (Qltb _ 0.3), (Qltb _ 2.0), (Qgtb _ 30),
    (Qgtb (App.avg_soil_moisture a) 0.5 && Qgtb _ 5); vm_compute; reflexivity.
Qed.

(** Its scoring blocks carry other constants and have no branch for the
    band from 0.3 to 0.5: on the concrete scenario it reaches 130, not 140. *)
Lemma engine_scoring_differs :
  GameEngine.irrigation_scoring 0.25 60 100 = 110%Z /\
  GameEngine.fertilizer_scoring 50 110 = 130%Z /\
  App.irrigation_scoring 0.25 60
    {| Decision.irrigation := 45; Decision.fertilizer := 50 |} 100 = (100 + 15)%Q.
Proof. vm_compute. repeat split. Qed.

(** ** The concrete scenario *)

(** C5.  On soil moisture 0.25, precipitation 1.5, temperature 32, the
    decision (irrigation 60, fertilizer 50) and the optimum (45, 50): the
    irrigation term is +15, the fertilizer term is +25, the yield is 140,
    and the recommendations are the low-soil, low-rainfall and
    high-temperature warnings in that order.  [calculate_yield] run on a
    simulator with that summary returns the same yield. *)
Theorem concrete_scenario :
  let optimal := {| Decision.irrigation := 45; Decision.fertilizer := 50 |} in
  App.irrigation_scoring 0.25 60 optimal 100 = (100 + 15)%Q /\
  App.fertilizer_scoring 50 optimal (100 + 15) = (100 + 15 + 25)%Q /\
  App.yield (App.score dry_hot_summary optimal 60 50) = 140%Q /\
  App.generate_recommendations dry_hot_summary =
    [App.LOW_SOIL; App.LOW_RAIN; App.HIGH_TEMP] /\
  (App.yield <$> App.calculate_yield dry_hot_farm 60 50) = Return 140%Q.
Proof. vm_compute. repeat split. Qed.

(** ** Summaries *)

Lemma mean_nil : mean [] = Raise ZeroDivisionError.
Proof. reflexivity. Qed.

Lemma mean_cons (x : Q) (xs : list Q) :
  mean (x :: xs) =
  Return (py_sum (x :: xs) / inject_Z (Z.of_nat (length (x :: xs))))%Q.
Proof. reflexivity. Qed.

(** C6, as the code has it.  On a loaded response whose series are empty,
    [analyze_conditions] raises: the division by [len] of the first series it
    averages fails with Python's ZeroDivisionError.  The code declares no
    error kind of its own for an empty series.  No value is substituted, the
    same error is raised whichever of the three averaged series is the empty
    one, and [calculate_yield] passes it on.  Both variants behave so. *)
Theorem empty_series_raises (params : parameter) :
  T2M params = [] \/ PRECTOTCORR params = [] \/ GWETROOT params = [] ->
  (forall self : App.FarmingSimulator,
     App.nasa_data self = Some params ->
     App.analyze_conditions self = Raise ZeroDivisionError /\
     forall irrigation fertilizer,
       App.calculate_yield self irrigation fertilizer = Raise ZeroDivisionError) /\
  (forall self : GameEngine.FarmingSimulator,
     GameEngine.nasa_data self = Some params ->
     GameEngine.analyze_conditions self = Raise ZeroDivisionError /\
     GameEngine.calculate_yield self = Raise ZeroDivisionError).
Proof.
  intros Hempty.
  assert (Hmeans :
    forall B (k : Q -> Q -> Q -> result B),
      (t ← mean (values (T2M params));
       p ← mean (values (PRECTOTCORR params));
       s ← mean (values (GWETROOT params));
       k t p s) = Raise ZeroDivisionError).
  { intros B k.
    destruct (values (T2M params)) as [| t ts] eqn:Et.
    { reflexivity. }
    destruct (values (PRECTOTCORR params)) as [| p ps] eqn:Ep.
    { reflexivity. }
    destruct (values (GWETROOT params)) as [| s ss] eqn:Es.
    { reflexivity. }
    unfold values in *.
    destruct Hempty as [H | [H | H]]; rewrite H in *; discriminate. }
  split; intros self Hdata.
  - assert (Ha : App.analyze_conditions self = Raise ZeroDivisionError).
    { unfold App.analyze_conditions. rewrite Hdata. apply Hmeans. }
    split; [exact Ha |]. intros. unfold App.calculate_yield. now rewrite Ha.
  - assert (Ha : GameEngine.analyze_conditions self = Raise ZeroDivisionError).
    { unfold GameEngine.analyze_conditions. rewrite Hdata. apply Hmeans. }
    split; [exact Ha |].
    unfold GameEngine.calculate_yield. now rewrite Hdata, Ha.
Qed.

(** C6 as stated fails: on the empty response the error that reaches the
    caller, from either variant, is the ZeroDivisionError of the division,
    not an error of a kind named for the empty series. *)
Lemma empty_series_error_is_zero_division :
  App.analyze_conditions empty_farm = Raise ZeroDivisionError /\
  App.calculate_yield empty_farm 50 50 = Raise ZeroDivisionError /\
  GameEngine.analyze_conditions empty_engine_farm = Raise ZeroDivisionError /\
  GameEngine.calculate_yield empty_engine_farm = Raise ZeroDivisionError.
Proof. repeat split. Qed.

Lemma empty_series_raises_witness :
  App.analyze_conditions empty_farm = Raise ZeroDivisionError /\
  App.calculate_yield empty_farm 60 50 = Raise ZeroDivisionError.
Proof.
  destruct (empty_series_raises empty_response (or_introl eq_refl)) as [H _].
  destruct (H empty_farm eq_refl) as [Ha Hy].
  exact (conj Ha (Hy 60%Z 50%Z)).
Defined.

Lemma foldl_py_min_le (xs : list Q) (acc : Q) :
  (foldl py_min acc xs <= acc)%Q /\
  Forall (fun x => (foldl py_min acc xs <= x)%Q) xs.
Proof.
  revert acc. induction xs as [| x xs IH]; intros acc; simpl.
  - split; [lra | constructor].
  - destruct (IH (py_min acc x)) as [H1 H2].
    assert (py_min acc x <= acc /\ py_min acc x <= x)%Q as [Ha Hx]
      by (unfold py_min; by_cases; lra).
    split; [lra |]. constructor; [lra | exact H2].
Qed.

Lemma foldl_py_max_ge (xs : list Q) (acc : Q) :
  (acc <= foldl py_max acc xs)%Q /\
  Forall (fun x => (x <= foldl py_max acc xs)%Q) xs.
Proof.
  revert acc. induction xs as [| x xs IH]; intros acc; simpl.
  - split; [lra | constructor].
  - destruct (IH (py_max acc x)) as [H1 H2].
    assert (acc <= py_max acc x /\ x <= py_max acc x)%Q as [Ha Hx]
      by (unfold py_max; by_cases; lra).
    split; [lra |]. constructor; [lra | exact H2].
Qed.

Lemma minimum_maximum_bound (xs : list Q) :
  Forall (fun x => (minimum xs <= x <= maximum xs)%Q) xs.
Proof.
  destruct xs as [| x xs]; [constructor |]. simpl.
  destruct (foldl_py_min_le xs x) as [Hm1 Hm2].
  destruct (foldl_py_max_ge xs x) as [HM1 HM2].
  constructor; [split; assumption |].
  rewrite Forall_forall in *. intros y Hy. split; auto.
Qed.

Lemma inject_Z_of_nat_S (n : nat) :
  (inject_Z (Z.of_nat (S n)) == inject_Z (Z.of_nat n) + 1)%Q.
Proof. rewrite Nat2Z.inj_succ. unfold Z.succ. now rewrite inject_Z_plus. Qed.

Lemma foldl_Qplus_bounds (lo hi : Q) (xs : list Q) (acc : Q) :
  Forall (fun x => (lo <= x <= hi)%Q) xs ->
  (acc + lo * inject_Z (Z.of_nat (length xs)) <= foldl Qplus acc xs
   <= acc + hi * inject_Z (Z.of_nat (length xs)))%Q.
Proof.
  intros H. revert acc. induction H as [| x xs [Hlo Hhi] _ IH]; intros acc.
  - simpl. change (inject_Z (Z.of_nat 0)) with 0%Q. lra.
  - cbn [foldl length]. rewrite inject_Z_of_nat_S.
    specialize (IH (acc + x)%Q). lra.
Qed.

(** The mean of a non-empty list lies between any two bounds of its
    elements. *)
Lemma mean_bounds (lo hi : Q) (xs : list Q) :
  xs <> [] -> Forall (fun x => (lo <= x <= hi)%Q) xs ->
  exists m, mean xs = Return m /\ (lo <= m <= hi)%Q.
Proof.
  intros Hne H. destruct xs as [| x xs]; [congruence |].
  eexists. split; [apply mean_cons |].
  assert (Hn : (0 < inject_Z (Z.of_nat (length (x :: xs))))%Q).
  { change 0%Q with (inject_Z 0). rewrite <- Zlt_Qlt. simpl length. lia. }
  pose proof (foldl_Qplus_bounds lo hi (x :: xs) 0 H) as [H1 H2].
  fold (py_sum (x :: xs)) in H1, H2.
  split.
  - apply Qle_shift_div_l; [exact Hn | lra].
  - apply Qle_shift_div_r; [exact Hn | lra].
Qed.

Lemma round_half_even_error (y : Q) :
  (y - (1 # 2) <= inject_Z (round_half_even y) <= y + (1 # 2))%Q.
Proof.
  unfold round_half_even.
  pose proof (Qfloor_le y) as Hf. pose proof (Qlt_floor y) as Hc.
  rewrite inject_Z_plus in Hc. change (inject_Z 1) with 1%Q in Hc.
  by_cases; [| | destruct (Z.even (Qfloor y))];
    rewrite ?inject_Z_plus; change (inject_Z 1) with 1%Q; lra.
Qed.









(** ** The fallback generator *)

Lemma length_date_range (today : Z) (periods : nat) :
  length (date_range today periods) = periods.
Proof. unfold date_range. now rewrite length_fmap, length_seq. Qed.

Lemma comprehension_dates (f : nat -> Q) (dates : list Z) :
  (comprehension f dates).*1 = dates.
Proof.
  unfold comprehension. revert f.
  induction dates as [| d ds IH]; intros f; [reflexivity |].
  rewrite imap_cons. simpl. f_equal. apply (IH (f ∘ S)).
Qed.

Lemma comprehension_values (f : nat -> Q) (dates : list Z) :
  values (comprehension f dates) = f <$> seq 0 (length dates).
Proof.
  unfold comprehension, values. revert f.
  induction dates as [| d ds IH]; intros f; [reflexivity |].
  rewrite imap_cons. simpl. f_equal.
  rewrite <- fmap_S_seq, <- list_fmap_compose. apply (IH (f ∘ S)).
Qed.

Lemma comprehension_ext (f f' : nat -> Q) (dates : list Z) :
  (forall k, f k = f' k) -> comprehension f dates = comprehension f' dates.
Proof.
  intros H. unfold comprehension. apply imap_ext. intros k x _. simpl.
  now rewrite H.
Qed.

(** Threading the generator through a comprehension hands entry [k] the
    draw number [drawn g + k] and leaves the generator advanced by the number
    of entries. *)
Lemma random_comprehension_eq (f : nat -> Q -> Q) (dates : list Z) :
  forall (i : nat) (g : RandomState),
    random_comprehension f i dates g =
    (comprehension (fun k => f (i + k) (draws g (drawn g + k))) dates,
     {| draws := draws g; drawn := drawn g + length dates |}).
Proof.
  unfold comprehension.
  induction dates as [| d ds IH]; intros i g.
  - simpl. destruct g as [dr n]. simpl. now rewrite Nat.add_0_r.
  - cbn [random_comprehension random]. rewrite IH. cbn [draws drawn length].
    rewrite imap_cons, !Nat.add_0_r. f_equal.
    + f_equal. apply imap_ext. intros k x _. simpl.
      now rewrite !Nat.add_succ_r.
    + f_equal. lia.
Qed.

(** What [app.py]'s generator returns, with the draws spelled out. *)
Lemma app_sample_data_eq (today : Z) (days : nat) (g : RandomState) :
  let dates := date_range today days in
  let noise (block k : nat) : Q := draws g (drawn g + block * days + k) in
  App._get_sample_data today days g =
  ({| T2M := comprehension (fun i => 20 + imod i 10 + noise 0%nat i * 3)%Q dates;
      PRECTOTCORR := comprehension (fun i => 2.5 + imod i 5 + noise 1%nat i)%Q dates;
      GWETROOT :=
        comprehension (fun i => 0.3 + imod i 3 * 0.1 + noise 2%nat i * 0.1)%Q dates;
      ALLSKY_SFC_SW_DWN := comprehension (fun i => 5.5 + noise 3%nat i)%Q dates |},
   {| draws := draws g; drawn := drawn g + 4 * days |}).
Proof.
  intros dates noise. unfold App._get_sample_data. fold dates.
  assert (Hlen : length dates = days) by apply length_date_range.
  rewrite !random_comprehension_eq. cbn [draws drawn].
  rewrite !Hlen. subst noise. cbn beta.
  f_equal; [f_equal | f_equal; lia].
  all: apply comprehension_ext; intros k; rewrite ?Nat.add_0_l.
  all: match goal with
       | |- ?lhs = ?rhs =>
           match lhs with context [draws _ ?n] =>
             match rhs with context [draws _ ?m] =>
               replace m with n by lia
             end
           end
       end; reflexivity.
Qed.

(** C8, as the code has it.  Two runs of the fallback generator for the
    same day count on the same date return the same four variables, each
    keyed by the same [days] dates, whatever the state of the random
    generator.  In [game_engine.py] the values are a function of the day
    index alone.  In [app.py] each value is that function of the day index
    plus a draw of [np.random.random()] (scaled by 3, 1, 0.1 and 1), so the
    values of two runs agree only as far as the draws do. *)
Theorem sample_data_shape (today : Z) (days : nat) (g1 g2 : RandomState) :
  let p1 := (App._get_sample_data today days g1).1 in
  let p2 := (App._get_sample_data today days g2).1 in
  let q := GameEngine._get_sample_data today in
  let noise (g : RandomState) (block k : nat) : Q :=
    draws g (drawn g + block * days + k) in
  (dates_of p1 = replicate 4 (date_range today days) /\
   dates_of p2 = dates_of p1 /\
   length (date_range today days) = days) /\
  (forall g p, (g = g1 /\ p = p1) \/ (g = g2 /\ p = p2) ->
     values (T2M p) =
       (fun i => 20 + imod i 10 + noise g 0%nat i * 3)%Q <$> seq 0 days /\
     values (PRECTOTCORR p) =
       (fun i => 2.5 + imod i 5 + noise g 1%nat i)%Q <$> seq 0 days /\
     values (GWETROOT p) =
       (fun i => 0.3 + imod i 3 * 0.1 + noise g 2%nat i * 0.1)%Q <$> seq 0 days /\
     values (ALLSKY_SFC_SW_DWN p) =
       (fun i => 5.5 + noise g 3%nat i)%Q <$> seq 0 days) /\
  (dates_of q = replicate 4 (date_range today 30) /\
   values (T2M q) = (fun i => 20 + imod i 10)%Q <$> seq 0 30 /\
   values (PRECTOTCORR q) = (fun i => 2.5 + imod i 5)%Q <$> seq 0 30 /\
   values (GWETROOT q) = (fun i => 0.3 + imod i 3 * 0.1)%Q <$> seq 0 30 /\
   values (ALLSKY_SFC_SW_DWN q) = (fun _ => 5.5)%Q <$> seq 0 30).
Proof.
  intros p1 p2 q noise.
  assert (Hlen := length_date_range today days).
  assert (Hshape : forall g,
            dates_of (App._get_sample_data today days g).1 =
            replicate 4 (date_range today days)).
  { intros g. rewrite app_sample_data_eq. unfold dates_of. cbn [fst T2M
      PRECTOTCORR GWETROOT ALLSKY_SFC_SW_DWN]. now rewrite !comprehension_dates. }
  assert (Hvalues : forall g,
            let p := (App._get_sample_data today days g).1 in
            values (T2M p) =
              (fun i => 20 + imod i 10 + noise g 0%nat i * 3)%Q <$> seq 0 days /\
            values (PRECTOTCORR p) =
              (fun i => 2.5 + imod i 5 + noise g 1%nat i)%Q <$> seq 0 days /\
            values (GWETROOT p) =
              (fun i => 0.3 + imod i 3 * 0.1 + noise g 2%nat i * 0.1)%Q
              <$> seq 0 days /\
            values (ALLSKY_SFC_SW_DWN p) =
              (fun i => 5.5 + noise g 3%nat i)%Q <$> seq 0 days).
  { intros g p. subst p. rewrite app_sample_data_eq.
    cbn [fst T2M PRECTOTCORR GWETROOT ALLSKY_SFC_SW_DWN].
    rewrite !comprehension_values, Hlen. repeat split. }
  split; [| split].
  - subst p1 p2. rewrite !Hshape. auto.
  - intros g p [[-> ->] | [-> ->]]; apply Hvalues.
  - subst q. unfold GameEngine._get_sample_data, dates_of.
    cbn [T2M PRECTOTCORR GWETROOT ALLSKY_SFC_SW_DWN].
    rewrite !comprehension_dates, !comprehension_values, length_date_range.
    repeat split.
Qed.

(** C8 as stated fails for [app.py]: one day, the same date, and the two
    runs disagree on the temperature. *)
Lemma sample_data_values_differ :
  match values (T2M (App._get_sample_data 0 1 zeros).1),
        values (T2M (App._get_sample_data 0 1 halves).1) with
  | [v1], [v2] => (v1 == 20)%Q /\ (v2 == 21.5)%Q /\ (v1 < v2)%Q
  | _, _ => False
  end.
Proof. vm_compute. repeat split. Qed.

(** ** The board game *)

Import Pygame.

Lemma py_clampZ (lo hi x : Z) :
  py_maxZ lo (py_minZ hi x) = Z.max lo (Z.min hi x).
Proof.
  unfold py_maxZ, py_minZ.
  destruct (Z.ltb_spec x hi);
    [destruct (Z.ltb_spec lo x) | destruct (Z.ltb_spec lo hi)]; lia.
Qed.

Lemma acting_player_Return (st : state) (p : player) :
  players st !! current_player st = Some p -> acting_player st = Return p.
Proof. unfold acting_player. now intros ->. Qed.

Lemma end_turn_Return (st : state) (now : string) :
  players st <> [] ->
  exists st', end_turn st now = Return st' /\ players st' = players st.
Proof.
  intros H. unfold end_turn. destruct (players st) eqn:E; [congruence |].
  eexists. split; [reflexivity |]. simpl. exact E.
Qed.

Lemma end_turn_players (st : state) (now : string) :
  match end_turn st now with
  | Return st' => players st' = players st
  | Raise _ => True
  end.
Proof. unfold end_turn. destruct (players st) eqn:E; simpl; auto. Qed.

(** Writing back a player whose score did not change leaves the scores as
    they were. *)
Lemma scores_store_same (st : state) (p p' : player) :
  players st !! current_player st = Some p ->
  sustainability p' = sustainability p ->
  scores (store_player st p') = scores st.
Proof.
  intros Hp Hs. unfold scores, store_player. simpl.
  rewrite list_fmap_insert, Hs. apply list_insert_id.
  now rewrite list_lookup_fmap, Hp.
Qed.

Lemma acting_player_cases (st : state) :
  (exists p, players st !! current_player st = Some p /\
             acting_player st = Return p) \/
  acting_player st = Raise IndexError.
Proof.
  unfold acting_player. destruct (players st !! current_player st) eqn:E.
  - left. eauto.
  - now right.
Qed.

Lemma buy_asset_scores (st : state) (a : asset) (now : string) :
  match buy_asset st a now with
  | Return st' => scores st' = scores st
  | Raise _ => True
  end.
Proof.
  unfold buy_asset.
  destruct (acting_player_cases st) as [(p & Hp & ->) | ->]; [| exact I].
  cbv [mbind result_bind].
  match goal with |- context [end_turn ?s now] =>
    pose proof (end_turn_players s now) as H;
    destruct (end_turn s now) as [st' | e]; [| exact I]
  end.
  unfold scores at 1. rewrite H.
  match type of H with
  | _ = players (set_game_state (store_player st ?p') _) =>
      exact (scores_store_same st p p' Hp eq_refl)
  end.
Qed.

Lemma end_turn_scores (st : state) (now : string) :
  match end_turn st now with
  | Return st' => scores st' = scores st
  | Raise _ => True
  end.
Proof.
  pose proof (end_turn_players st now) as H.
  destruct (end_turn st now); [| exact I]. unfold scores. now rewrite H.
Qed.

Lemma lookup_store_player (st : state) (p p' : player) :
  players st !! current_player st = Some p ->
  players (store_player st p') !! current_player st = Some p'.
Proof.
  intros Hp. unfold store_player. simpl.
  apply list_lookup_insert_eq. eapply lookup_lt_Some, Hp.
Qed.

Lemma update_scores (self : HarvestHorizonGame) (ticks rolled : Z) (pick : nat)
    (now : string) :
  match update self ticks rolled pick now with
  | Return self' => scores (document self') = scores (document self)
  | Raise _ => True
  end.
Proof.
  unfold update.
  destruct (is_rolling self && (1000 <? ticks - roll_start_time self)%Z);
    [| reflexivity].
  set (st0 := set_dice_value (document self) rolled).
  destruct (acting_player_cases st0) as [(p & Hp & ->) | ->]; [| exact I].
  cbv [mbind result_bind].
  destruct (board_tiles (content self)) as [| t ts] eqn:Et; [exact I |].
  set (p1 := set_position p _).
  assert (H1 : scores (store_player st0 p1) = scores (document self))
    by exact (scores_store_same st0 p p1 Hp eq_refl).
  destruct ((t :: ts) !! Z.to_nat (position p1)) as [tile |]; [| exact I].
  destruct (bool_decide (type tile = "event")).
  { destruct (problem_cards (content self) !! pick); [| exact I].
    exact H1. }
  destruct (bool_decide (type tile = "shop")); [exact H1 |].
  set (p2 := set_cash p1 _).
  pose proof (end_turn_scores (store_player (store_player st0 p1) p2) now) as H.
  destruct (end_turn _ now) as [st' | e]; [| exact I].
  cbn [document]. change (scores (save_state st' now)) with (scores st').
  rewrite H, <- H1.
  exact (scores_store_same (store_player st0 p1) p1 p2
           (lookup_store_player st0 p p1 Hp) eq_refl).
Qed.

(** C9.  When the acting player can afford the card, [select_solution]
    returns, and for a card whose effect carries a sustainability change the
    player's new score is max(1, min(10, old + change)), between 1 and 10
    whatever the old score and the change were; a card without one leaves
    the score alone, and the other players' scores are not touched.  When
    the player cannot afford it, nothing changes.  No other operation on the
    document ([buy_asset], [end_turn], [save_state], [update]) changes any
    score, and the game starts with every score at 7. *)
Theorem select_solution_sustainability (st : state) (s : solution)
    (now : string) (p : player) :
  players st !! current_player st = Some p ->
  ((cost s <= cash p)%Z ->
   exists st' p',
     select_solution st s now = Return st' /\
     players st' !! current_player st = Some p' /\
     (forall change,
        effect s !! "sustainability_change" = Some change ->
        sustainability p' = Z.max 1 (Z.min 10 (sustainability p + change)) /\
        (1 <= sustainability p' <= 10)%Z) /\
     (effect s !! "sustainability_change" = None ->
      sustainability p' = sustainability p) /\
     (forall i, i <> current_player st -> scores st' !! i = scores st !! i)) /\
  ((cash p < cost s)%Z -> select_solution st s now = Return st) /\
  (forall (a : asset),
     match buy_asset st a now with
     | Return st' => scores st' = scores st
     | Raise _ => True
     end) /\
  match end_turn st now with
  | Return st' => scores st' = scores st
  | Raise _ => True
  end /\
  scores (save_state st now) = scores st /\
  (forall (self : HarvestHorizonGame) (ticks rolled : Z) (pick : nat),
     match update self ticks rolled pick now with
     | Return self' => scores (document self') = scores (document self)
     | Raise _ => True
     end) /\
  scores initial_state = [7%Z; 7%Z].
Proof.
  intros Hp.
  split; [| split; [| split; [| split; [| split; [| split]]]]].
  - intros Hcash. unfold select_solution.
    rewrite (acting_player_Return st p Hp). cbv [mbind result_bind].
    destruct (Z.leb_spec (cost s) (cash p)) as [_ | ?]; [| lia].
    set (p' := match effect s !! "sustainability_change" with
               | Some change => _ | None => _ end).
    set (st1 := set_current_card _ None).
    assert (Hpl : players st1 = <[current_player st := p']> (players st))
      by reflexivity.
    destruct (end_turn_Return st1 now) as (st' & Hend & Hst').
    { rewrite Hpl. intros E. apply (f_equal length) in E.
      rewrite length_insert in E. apply lookup_lt_Some in Hp.
      simpl in E. lia. }
    exists st', p'. split; [exact Hend |].
    split.
    { rewrite Hst', Hpl. apply list_lookup_insert_eq.
      eapply lookup_lt_Some, Hp. }
    split; [| split].
    + intros change Hc. subst p'. rewrite Hc. simpl.
      rewrite py_clampZ. split; [reflexivity | lia].
    + intros Hc. subst p'. now rewrite Hc.
    + intros i Hi. unfold scores. rewrite Hst', Hpl, !list_lookup_fmap.
      now rewrite list_lookup_insert_ne by auto.
  - intros Hcash. unfold select_solution.
    rewrite (acting_player_Return st p Hp). cbv [mbind result_bind].
    destruct (Z.leb_spec (cost s) (cash p)) as [? | _]; [lia | reflexivity].
  - intros a. apply buy_asset_scores.
  - apply end_turn_scores.
  - reflexivity.
  - intros. apply update_scores.
  - reflexivity.
Qed.

Lemma select_solution_sustainability_witness :
  exists st' p',
    select_solution initial_state cover_crops "2024-01-01T00:00:00Z" = Return st' /\
    players st' !! 0 = Some p' /\
    sustainability p' = 10%Z /\ (1 <= sustainability p' <= 10)%Z.
Proof.
  destruct (select_solution_sustainability initial_state cover_crops
              "2024-01-01T00:00:00Z"
              {| name := "Player 1"; position := 0; cash := 10000;
                 sustainability := 7; owned := [] |} eq_refl) as [H _].
  destruct H as (st' & p' & H1 & H2 & H3 & _); [simpl; lia |].
  exists st', p'. destruct (H3 5%Z) as [H4 H5]; [reflexivity |].
  repeat split; try assumption; apply H5.
Defined.

(** ** No data *)

(** C10.  With no climate data loaded, [calculate_yield] of
    [game_engine.py] returns the yield 0 with the message
    'No data available', and the simulator, its water usage and fertilizer
    cost included, is as it was. *)
Theorem no_data_yield (self : GameEngine.FarmingSimulator) :
  GameEngine.nasa_data self = None ->
  exists self',
    GameEngine.calculate_yield self =
      Return (0%Z, [[Text "No data available"]], self') /\
    self' = self /\
    GameEngine.water_usage self' = GameEngine.water_usage self /\
    GameEngine.fertilizer_cost self' = GameEngine.fertilizer_cost self.
Proof.
  intros H. exists self. unfold GameEngine.calculate_yield. rewrite H. auto.
Qed.

Lemma no_data_yield_witness :
  let farm :=
    GameEngine.init "wheat"
      {| GameEngine.lat := 37.5; GameEngine.lon := -95.5;
         GameEngine.name := "Kansas, USA" |} in
  exists self',
    GameEngine.calculate_yield farm =
      Return (0%Z, [[Text "No data available"]], self') /\
    self' = farm /\
    GameEngine.water_usage self' = GameEngine.water_usage farm /\
    GameEngine.fertilizer_cost self' = GameEngine.fertilizer_cost farm.
Proof.
  intros farm. exact (no_data_yield farm eq_refl).
Defined.

(** * Further properties *)

(** ** Scoring in [app.py] *)

Lemma app_irrigation_bounds (soil : Q) (irrigation : Z) (optimal : decision)
    (base_yield : Q) :
  (base_yield - 30 <= App.irrigation_scoring soil irrigation optimal base_yield
   <= base_yield + 20)%Q.
Proof.
  assert (0 <= inject_Z (Z.abs (irrigation - Decision.irrigation optimal)))%Q
    by (change 0%Q with (inject_Z 0); rewrite <- Zle_Qle; apply Z.abs_nonneg).
  unfold App.irrigation_scoring, py_max.
  set (d := inject_Z _) in *. clearbody d.
  by_cases; unfold Qdiv in *; change (/ 2)%Q with (1 # 2)%Q in *; lra.
Qed.

Lemma app_fertilizer_bounds (fertilizer : Z) (optimal : decision)
    (base_yield : Q) :
  (base_yield - 20 <= App.fertilizer_scoring fertilizer optimal base_yield
   <= base_yield + 25)%Q.
Proof.
  unfold App.fertilizer_scoring. by_cases; lra.
Qed.

Lemma clamp_inactive (x : Q) :
  (0 < x)%Q -> (x < 150)%Q -> py_max 0 (py_min 150 x) = x.
Proof.
  intros H0 H150. unfold py_max, py_min, Qgtb.
  rewrite (proj2 (Qltb_true x 150) H150).
  now rewrite (proj2 (Qltb_true 0 x) H0).
Qed.

Lemma app_score_raw (a : App.analysis) (optimal : decision)
    (irrigation fertilizer : Z) :
  let raw :=
    App.fertilizer_scoring fertilizer optimal
      (App.irrigation_scoring (App.avg_soil_moisture a) irrigation optimal 100) in
  App.yield (App.score a optimal irrigation fertilizer) = raw /\
  (50 <= raw <= 145)%Q.
Proof.
  intros raw.
  pose proof (app_irrigation_bounds (App.avg_soil_moisture a) irrigation
                optimal 100) as Hi.
  pose proof (app_fertilizer_bounds fertilizer optimal
                (App.irrigation_scoring (App.avg_soil_moisture a) irrigation
                   optimal 100)) as Hf.
  fold raw in Hf.
  split; [| lra].
  rewrite app_score_yield. fold raw. apply clamp_inactive; lra.
Qed.

(** X1.  Whatever the summary and the decision, the two adjustments keep
    the yield between 50 and 145, so the clamp to [0, 150] never changes
    anything: the yield returned is the base plus the two terms. *)
Theorem app_yield_range (a : App.analysis) (optimal : decision)
    (irrigation fertilizer : Z) :
  let raw :=
    App.fertilizer_scoring fertilizer optimal
      (App.irrigation_scoring (App.avg_soil_moisture a) irrigation optimal 100) in
  App.yield (App.score a optimal irrigation fertilizer) = raw /\
  (50 <= raw <= 145)%Q.
Proof. apply app_score_raw. Qed.

(** X2.  With the soil moisture in the band from 0.3 to 0.5, the yield
    does not increase as the irrigation moves away from the optimum, at any
    fertilizer level; with both sliders on the optimum it is 145, the most
    the scoring can give. *)
Theorem app_yield_peaks_at_optimum (a : App.analysis) (optimal : decision) :
  (0.3 <= App.avg_soil_moisture a <= 0.5)%Q ->
  (App.yield (App.score a optimal (Decision.irrigation optimal)
                (Decision.fertilizer optimal)) == 145)%Q /\
  (forall irrigation1 irrigation2 fertilizer : Z,
     (Z.abs (irrigation1 - Decision.irrigation optimal) <=
      Z.abs (irrigation2 - Decision.irrigation optimal))%Z ->
     (App.yield (App.score a optimal irrigation2 fertilizer) <=
      App.yield (App.score a optimal irrigation1 fertilizer))%Q).
Proof.
  intros [Hlo Hhi].
  assert (Hmid : forall irrigation b,
            (App.irrigation_scoring (App.avg_soil_moisture a) irrigation optimal b
             == b + Qmax 0 (20 - inject_Z
                  (Z.abs (irrigation - Decision.irrigation optimal)) / 2))%Q).
  { intros irrigation b. unfold App.irrigation_scoring.
    rewrite <- py_max_Qmax. by_cases; first [lra | reflexivity]. }
  assert (Hfert : forall fertilizer b b',
            (b <= b')%Q ->
            (App.fertilizer_scoring fertilizer optimal b <=
             App.fertilizer_scoring fertilizer optimal b')%Q).
  { intros fertilizer b b' Hb. unfold App.fertilizer_scoring. by_cases; lra. }
  split.
  - destruct (app_score_raw a optimal (Decision.irrigation optimal)
                (Decision.fertilizer optimal)) as [-> _].
    assert (E : (App.irrigation_scoring (App.avg_soil_moisture a)
                   (Decision.irrigation optimal) optimal 100 == 120)%Q).
    { rewrite Hmid, Z.sub_diag. simpl Z.abs.
      rewrite Q.max_r; [reflexivity | discriminate]. }
    unfold App.fertilizer_scoring. rewrite Z.sub_diag. simpl. rewrite E.
    reflexivity.
  - intros i1 i2 f Habs.
    destruct (app_score_raw a optimal i1 f) as [-> _].
    destruct (app_score_raw a optimal i2 f) as [-> _].
    apply Hfert. rewrite !Hmid.
    apply Qplus_le_r. apply Q.max_le_compat_l.
    rewrite Zle_Qle in Habs.
    set (d1 := inject_Z _) in *. set (d2 := inject_Z _) in *.
    apply Qplus_le_r, Qopp_le_compat.
    apply Qmult_le_compat_r; [exact Habs | discriminate].
Qed.

Lemma app_yield_peaks_at_optimum_witness :
  (App.yield (App.score mild_summary
                {| Decision.irrigation := 45; Decision.fertilizer := 50 |}
                45 50) == 145)%Q /\
  (App.yield (App.score mild_summary
                {| Decision.irrigation := 45; Decision.fertilizer := 50 |}
                70 50) <=
   App.yield (App.score mild_summary
                {| Decision.irrigation := 45; Decision.fertilizer := 50 |}
                40 50))%Q.
Proof.
  destruct (app_yield_peaks_at_optimum mild_summary
              {| Decision.irrigation := 45; Decision.fertilizer := 50 |})
    as [H1 H2].
  - split; discriminate.
  - split; [exact H1 |]. apply H2. simpl. lia.
Defined.

(** ** Advice and scoring *)

Lemma app_low_soil_shown (a : App.analysis) :
  App.LOW_SOIL ∈ App.generate_recommendations a ->
  Qltb (App.avg_soil_moisture a) 0.3 = true.
Proof.
  rewrite app_recommendations_fired. unfold fired.
  destruct (Qltb (App.avg_soil_moisture a) 0.3); [reflexivity |].
  destruct (Qltb _ 2.0), (Qgtb _ 30),
    (Qgtb (App.avg_soil_moisture a) 0.5 && Qgtb _ 5); simpl; intros H;
    exfalso; revert H; apply (bool_decide_unpack _); vm_compute; exact I.
Qed.

Lemma app_overwater_shown (a : App.analysis) :
  App.OVERWATER ∈ App.generate_recommendations a ->
  Qgtb (App.avg_soil_moisture a) 0.5 = true.
Proof.
  rewrite app_recommendations_fired. unfold fired.
  destruct (Qgtb (App.avg_soil_moisture a) 0.5); [reflexivity |].
  destruct (Qltb _ 0.3), (Qltb _ 2.0), (Qgtb _ 30); simpl; intros H;
    exfalso; revert H; apply (bool_decide_unpack _); vm_compute; exact I.
Qed.

(** X3.  The warnings about soil moisture are the ones the scoring
    honours.  When the low-moisture warning is shown, an irrigation of 50 or
    more scores exactly 45 points above one below 50, at the same
    fertilizer; when the overwatering warning is shown, an irrigation of 30
    or less scores exactly 45 points above one over 30.  Temperature and
    rainfall are never scored: two summaries with the same soil moisture
    give the same yield. *)
Theorem app_advice_scored (a : App.analysis) (optimal : decision) :
  let recs := App.generate_recommendations a in
  let yield_of (i f : Z) := App.yield (App.score a optimal i f) in
  (App.LOW_SOIL ∈ recs ->
   forall i1 i2 f, (50 <= i1)%Z -> (i2 < 50)%Z ->
     (yield_of i1 f == yield_of i2 f + 45)%Q) /\
  (App.OVERWATER ∈ recs ->
   forall i1 i2 f, (i1 <= 30)%Z -> (30 < i2)%Z ->
     (yield_of i1 f == yield_of i2 f + 45)%Q) /\
  (forall a' i f,
     App.avg_soil_moisture a' = App.avg_soil_moisture a ->
     App.yield (App.score a' optimal i f) = yield_of i f).
Proof.
  intros recs yield_of. subst recs yield_of.
  assert (Hfert : forall f b c,
            (App.fertilizer_scoring f optimal (b + c) ==
             App.fertilizer_scoring f optimal b + c)%Q).
  { intros f b c. unfold App.fertilizer_scoring. by_cases; lra. }
  split; [| split].
  - intros Hin i1 i2 f H1 H2. apply app_low_soil_shown in Hin.
    destruct (app_score_raw a optimal i1 f) as [-> _].
    destruct (app_score_raw a optimal i2 f) as [-> _].
    unfold App.irrigation_scoring. rewrite Hin.
    destruct (Z.leb_spec 50 i1); [| lia]. destruct (Z.leb_spec 50 i2); [lia |].
    rewrite <- Hfert. unfold App.fertilizer_scoring. by_cases; lra.
  - intros Hin i1 i2 f H1 H2. apply app_overwater_shown in Hin.
    assert (Hdry : Qltb (App.avg_soil_moisture a) 0.3 = false).
    { apply Qltb_false. unfold Qgtb in Hin. apply Qltb_true in Hin. lra. }
    destruct (app_score_raw a optimal i1 f) as [-> _].
    destruct (app_score_raw a optimal i2 f) as [-> _].
    unfold App.irrigation_scoring. rewrite Hdry, Hin.
    destruct (Z.leb_spec i1 30); [| lia]. destruct (Z.leb_spec i2 30); [lia |].
    rewrite <- Hfert. unfold App.fertilizer_scoring. by_cases; lra.
  - intros a' i f Hsoil. rewrite !app_score_yield. now rewrite Hsoil.
Qed.

(** X4.  The recommendations are never empty, never repeat a message and
    never hold more than three: the low-moisture and the overwatering
    warning exclude each other. *)
Theorem app_recommendations_shape (a : App.analysis) :
  let recs := App.generate_recommendations a in
  recs <> [] /\ length recs <= 3 /\ NoDup recs /\
  ~ (App.LOW_SOIL ∈ recs /\ App.OVERWATER ∈ recs).
Proof.
  intros recs.
  assert (Hex : ~ (App.LOW_SOIL ∈ recs /\ App.OVERWATER ∈ recs)).
  { intros [H1 H2]. apply app_low_soil_shown in H1.
    apply app_overwater_shown in H2.
    apply Qltb_true in H1. unfold Qgtb in H2. apply Qltb_true in H2. lra. }
  split; [| split; [| split]]; [| | | exact Hex].
  all: revert Hex; subst recs; rewrite app_recommendations_fired; unfold fired;
    destruct (Qltb _ 0.3), (Qltb _ 2.0), (Qgtb _ 30),
      (Qgtb (App.avg_soil_moisture a) 0.5 && Qgtb _ 5); simpl; intros Hex.
  all: try discriminate.
  all: try lia.
  all: try (apply (bool_decide_unpack _); vm_compute; exact I).
  all: exfalso; apply Hex; split;
    apply (bool_decide_unpack _); vm_compute; exact I.
Qed.

(** ** No data in [app.py] *)

(** X5.  Before any data is loaded, [analyze_conditions] of [app.py]
    returns the empty dict without complaint, and [calculate_yield] then
    fails on the first key it reads from it, with a KeyError, where
    [game_engine.py] reports 'No data available'. *)
Theorem app_no_data_raises (self : App.FarmingSimulator)
    (irrigation fertilizer : Z) :
  App.nasa_data self = None ->
  App.analyze_conditions self = Return None /\
  App.calculate_yield self irrigation fertilizer =
    Raise (KeyError "avg_soil_moisture").
Proof.
  intros H. unfold App.calculate_yield, App.analyze_conditions.
  rewrite H. split; reflexivity.
Qed.

Lemma app_no_data_raises_witness :
  App.analyze_conditions (App.init (App.scenario dry_hot_farm)) = Return None /\
  App.calculate_yield (App.init (App.scenario dry_hot_farm)) 50 50 =
    Raise (KeyError "avg_soil_moisture").
Proof.
  exact (app_no_data_raises (App.init (App.scenario dry_hot_farm)) 50 50 eq_refl).
Defined.

(** ** The fallback data of [app.py] *)

Lemma imod_bounds (i : nat) (n : Z) :
  (0 < n)%Z -> (0 <= imod i n <= inject_Z (n - 1))%Q.
Proof.
  intros Hn. unfold imod.
  pose proof (Z.mod_pos_bound (Z.of_nat i) n Hn) as [H1 H2].
  split.
  - change 0%Q with (inject_Z 0). now rewrite <- Zle_Qle.
  - rewrite <- Zle_Qle. lia.
Qed.

(** X6.  Whatever the day count, as long as the generator hands out
    numbers in [0, 1): every fallback temperature lies between 20 and 32,
    every precipitation between 2.5 and 7.5, every soil moisture between 0.3
    and 0.6, every solar radiation between 5.5 and 6.5, ends included, and
    the generator is left advanced by four draws per day.  The upper ends
    are included because a draw just below 1 reaches them once the sum is
    rounded to a double. *)
Theorem app_sample_data_ranges (today : Z) (days : nat) (g : RandomState) :
  (forall n, (0 <= draws g n < 1)%Q) ->
  let p := (App._get_sample_data today days g).1 in
  Forall (fun v => (20 <= v <= 32)%Q) (values (T2M p)) /\
  Forall (fun v => (2.5 <= v <= 7.5)%Q) (values (PRECTOTCORR p)) /\
  Forall (fun v => (0.3 <= v <= 0.6)%Q) (values (GWETROOT p)) /\
  Forall (fun v => (5.5 <= v <= 6.5)%Q) (values (ALLSKY_SFC_SW_DWN p)) /\
  drawn (App._get_sample_data today days g).2 = drawn g + 4 * days.
Proof.
  intros Hg p. subst p. rewrite app_sample_data_eq.
  cbn [fst snd T2M PRECTOTCORR GWETROOT ALLSKY_SFC_SW_DWN drawn].
  rewrite !comprehension_values.
  repeat split;
    try (apply Forall_fmap, Forall_forall; intros i _; unfold compose; cbn beta).
  all: try match goal with
         | |- context [draws ?g0 ?n] =>
             pose proof (Hg n) as [? ?]; set (r := draws g0 n) in *; clearbody r
         end.
  all: try match goal with
         | |- context [imod ?i ?n] =>
             pose proof (imod_bounds i n eq_refl) as [? ?];
             (let b := eval vm_compute in (inject_Z (n - 1)) in
              change (inject_Z (n - 1)) with b in * );
             set (m := imod i n) in *; clearbody m
         end.
  all: lra.
Qed.

Lemma app_sample_data_ranges_witness :
  let p := (App._get_sample_data 0 30 zeros).1 in
  Forall (fun v => (20 <= v <= 32)%Q) (values (T2M p)) /\
  Forall (fun v => (2.5 <= v <= 7.5)%Q) (values (PRECTOTCORR p)) /\
  Forall (fun v => (0.3 <= v <= 0.6)%Q) (values (GWETROOT p)) /\
  Forall (fun v => (5.5 <= v <= 6.5)%Q) (values (ALLSKY_SFC_SW_DWN p)) /\
  drawn (App._get_sample_data 0 30 zeros).2 = drawn zeros + 4 * 30.
Proof.
  apply (app_sample_data_ranges 0 30 zeros). intros n. simpl. split.
  - discriminate.
  - reflexivity.
Defined.

Lemma foldl_Qplus_fmap_le (f h : nat -> Q) (l : list nat) (acc acc' : Q) :
  (forall i, f i <= h i)%Q -> (acc <= acc')%Q ->
  (foldl Qplus acc (f <$> l) <= foldl Qplus acc' (h <$> l))%Q.
Proof.
  intros Hfh. revert acc acc'.
  induction l as [| i l IH]; intros acc acc' Hacc; simpl; [exact Hacc |].
  apply IH. specialize (Hfh i). lra.
Qed.

(** The mean of [f 0, ..., f n] lies between the means of two sequences
    that bound it entry by entry. *)
Lemma mean_fmap_between (f lo hi : nat -> Q) (n : nat) (slo shi : Q) :
  (forall i, lo i <= f i <= hi i)%Q ->
  (py_sum (lo <$> seq 0 (S n)) == slo)%Q ->
  (py_sum (hi <$> seq 0 (S n)) == shi)%Q ->
  exists m,
    mean (f <$> seq 0 (S n)) = Return m /\
    (slo <= m * inject_Z (Z.of_nat (S n)) <= shi)%Q.
Proof.
  intros Hb Hlo Hhi.
  assert (Hn : (0 < inject_Z (Z.of_nat (S n)))%Q).
  { change 0%Q with (inject_Z 0). rewrite <- Zlt_Qlt. lia. }
  eexists. split.
  { change (f <$> seq 0 (S n)) with (f 0%nat :: (f <$> seq 1 n)).
    rewrite mean_cons. cbn [length]. rewrite length_fmap, length_seq.
    reflexivity. }
  change (f 0%nat :: (f <$> seq 1 n)) with (f <$> seq 0 (S n)).
  set (s := py_sum (f <$> seq 0 (S n))).
  assert (slo <= s <= shi)%Q as [H1 H2].
  { subst s. rewrite <- Hlo, <- Hhi. unfold py_sum. split.
    - apply foldl_Qplus_fmap_le; [intros i; apply Hb | lra].
    - apply foldl_Qplus_fmap_le; [intros i; apply Hb | lra]. }
  assert (E : (s / inject_Z (Z.of_nat (S n)) * inject_Z (Z.of_nat (S n)) == s)%Q).
  { field. intros E. rewrite E in Hn. discriminate. }
  rewrite E. split; assumption.
Qed.

Lemma round_half_even_between (klo khi : Z) (y : Q) :
  (inject_Z klo <= y <= inject_Z khi)%Q ->
  (klo <= round_half_even y <= khi)%Z.
Proof.
  intros [Hlo Hhi]. pose proof (round_half_even_error y) as [H1 H2].
  assert (inject_Z (klo - 1) < inject_Z (round_half_even y))%Q as Ha.
  { unfold Z.sub. rewrite inject_Z_plus, inject_Z_opp.
    change (inject_Z 1) with 1%Q.
    set (r := inject_Z (round_half_even y)) in *. set (k := inject_Z klo) in *.
    clearbody r k. lra. }
  assert (inject_Z (round_half_even y) < inject_Z (khi + 1))%Q as Hb.
  { rewrite inject_Z_plus. change (inject_Z 1) with 1%Q.
    set (r := inject_Z (round_half_even y)) in *. set (k := inject_Z khi) in *.
    clearbody r k. lra. }
  rewrite <- Zlt_Qlt in Ha, Hb. lia.
Qed.

(** Rounding to [n] places does not cross a number that has at most [n]
    places itself. *)
Lemma py_round_between (n : nat) (klo khi : Z) (m total : Q) :
  (0 < total)%Q ->
  (inject_Z klo * total <= m * total * inject_Z (10 ^ Z.of_nat n)
   <= inject_Z khi * total)%Q ->
  (inject_Z klo <= py_round m n * inject_Z (10 ^ Z.of_nat n) <= inject_Z khi)%Q.
Proof.
  intros Ht [Hlo Hhi]. unfold py_round.
  set (s := inject_Z (10 ^ Z.of_nat n)) in *.
  assert (Hs : (0 < s)%Q).
  { subst s. change 0%Q with (inject_Z 0). rewrite <- Zlt_Qlt.
    apply Z.pow_pos_nonneg; lia. }
  assert (Hy : (inject_Z klo <= m * s <= inject_Z khi)%Q).
  { split.
    - apply (Qmult_le_r _ _ total Ht). lra.
    - apply (Qmult_le_r _ _ total Ht). lra. }
  apply round_half_even_between in Hy. destruct Hy as [Ha Hb].
  rewrite Zle_Qle in Ha, Hb.
  set (r := inject_Z (round_half_even (m * s))) in *.
  assert (E : (r / s * s == r)%Q).
  { field. intros E. rewrite E in Hs. discriminate. }
  rewrite E. split; assumption.
Qed.

(** The reported average of thirty values [f 0, ..., f 29] that lie entry
    by entry between two sequences of known sums. *)
Lemma reported_between (f lo hi : nat -> Q) (slo shi : Q) (digits : nat)
    (klo khi : Z) :
  (forall i, lo i <= f i <= hi i)%Q ->
  (py_sum (lo <$> seq 0 30) == slo)%Q ->
  (py_sum (hi <$> seq 0 30) == shi)%Q ->
  (inject_Z klo * 30 <= slo * inject_Z (10 ^ Z.of_nat digits))%Q ->
  (shi * inject_Z (10 ^ Z.of_nat digits) <= inject_Z khi * 30)%Q ->
  exists m,
    mean (f <$> seq 0 30) = Return m /\
    (inject_Z klo <= py_round m digits * inject_Z (10 ^ Z.of_nat digits)
     <= inject_Z khi)%Q.
Proof.
  intros Hb Hlo Hhi Hklo Hkhi.
  destruct (mean_fmap_between f lo hi 29 slo shi Hb Hlo Hhi) as (m & Hm & H1 & H2).
  exists m. split; [exact Hm |].
  change (inject_Z (Z.of_nat 30)) with 30%Q in H1, H2.
  assert (Hs : (0 < inject_Z (10 ^ Z.of_nat digits))%Q).
  { change 0%Q with (inject_Z 0). rewrite <- Zlt_Qlt.
    apply Z.pow_pos_nonneg; lia. }
  apply (py_round_between digits klo khi m 30); [reflexivity |].
  set (s := inject_Z (10 ^ Z.of_nat digits)) in *. clearbody s.
  set (a := inject_Z klo) in *. set (b := inject_Z khi) in *. clearbody a b.
  split.
  - apply Qle_trans with (slo * s)%Q; [exact Hklo |].
    apply Qmult_le_compat_r; [exact H1 | lra].
  - apply Qle_trans with (shi * s)%Q; [| exact Hkhi].
    apply Qmult_le_compat_r; [exact H2 | lra].
Qed.

(** X7.  When the request fails and nothing is cached, [load_nasa_data]
    loads thirty days of fallback data, caches nothing and uses up 120
    draws.  Whatever those draws are in [0, 1), the summary then reports a
    temperature between 24.5 and 27.5, a precipitation between 4.5 and 5.5
    and a soil moisture between 0.4 and 0.5; the only recommendation is that
    conditions are optimal; and [calculate_yield] returns a result for every
    decision. *)
Ltac lra_imod :=
  repeat match goal with
    | Hm : forall n : Z, (0 < n)%Z -> (0 <= imod ?i n)%Q |- context [imod ?i ?n] =>
        let H := fresh in
        pose proof (Hm n eq_refl) as H;
        set (m := imod i n) in *; clearbody m
    end;
  lra.

Theorem app_fallback_is_mild (str : Q -> string) (self : App.FarmingSimulator)
    (fetcher : App.NASADataFetcher) (today : Z) (g : RandomState) :
  let loc := App.scenario_location (App.scenario self) in
  let loaded := App.load_nasa_data str self fetcher None today g in
  App.cache fetcher !! App.cache_key str (App.lat loc) (App.lon loc) 30 = None ->
  (forall n, (0 <= draws g n < 1)%Q) ->
  loaded.1.2 = fetcher /\
  drawn loaded.2 = drawn g + 120 /\
  exists a,
    App.analyze_conditions loaded.1.1 = Return (Some a) /\
    (24.5 <= App.avg_temperature a <= 27.5)%Q /\
    (4.5 <= App.avg_precipitation a <= 5.5)%Q /\
    (0.4 <= App.avg_soil_moisture a <= 0.5)%Q /\
    App.generate_recommendations a = [App.OPTIMAL] /\
    forall irrigation fertilizer,
      App.calculate_yield loaded.1.1 irrigation fertilizer =
      Return (App.score a (App.optimal (App.scenario self)) irrigation fertilizer).
Proof.
  intros loc loaded Hmiss Hg. subst loaded.
  unfold App.load_nasa_data, App.get_climate_data. fold loc. rewrite Hmiss.
  rewrite app_sample_data_eq. cbn [fst snd drawn].
  split; [reflexivity |]. split; [reflexivity |].
  unfold App.calculate_yield, App.analyze_conditions.
  cbn [App.nasa_data T2M PRECTOTCORR GWETROOT App.scenario].
  rewrite !comprehension_values, length_date_range.
  assert (Hn : forall b k, (0 <= draws g (drawn g + b * 30 + k) <= 1)%Q).
  { intros b k. destruct (Hg (drawn g + b * 30 + k)).
    split; [assumption | now apply Qlt_le_weak]. }
  assert (Hm : forall (i : nat) (n : Z), (0 < n)%Z -> (0 <= imod i n)%Q)
    by (intros i n H; apply (imod_bounds i n H)).
  destruct (reported_between
              (fun i => 20 + imod i 10 + draws g (drawn g + 0 * 30 + i) * 3)%Q
              (fun i => 20 + imod i 10)%Q (fun i => 20 + imod i 10 + 3)%Q
              735 825 1 245 275) as (t & -> & Ht1 & Ht2);
    [intros i; specialize (Hn 0%nat i); specialize (Hm i);
     set (r := draws g _) in *; clearbody r; lra_imod
    | vm_compute; reflexivity | vm_compute; reflexivity
    | vm_compute; discriminate | vm_compute; discriminate |].
  destruct (reported_between
              (fun i => 2.5 + imod i 5 + draws g (drawn g + 1 * 30 + i))%Q
              (fun i => 2.5 + imod i 5)%Q (fun i => 2.5 + imod i 5 + 1)%Q
              135 165 2 450 550) as (p & -> & Hp1 & Hp2);
    [intros i; specialize (Hn 1%nat i); specialize (Hm i);
     set (r := draws g _) in *; clearbody r; lra_imod
    | vm_compute; reflexivity | vm_compute; reflexivity
    | vm_compute; discriminate | vm_compute; discriminate |].
  destruct (reported_between
              (fun i => 0.3 + imod i 3 * 0.1 + draws g (drawn g + 2 * 30 + i) * 0.1)%Q
              (fun i => 0.3 + imod i 3 * 0.1)%Q
              (fun i => 0.3 + imod i 3 * 0.1 + 0.1)%Q
              12 15 2 40 50) as (s & -> & Hs1 & Hs2);
    [intros i; specialize (Hn 2%nat i); specialize (Hm i);
     set (r := draws g _) in *; clearbody r; lra_imod
    | vm_compute; reflexivity | vm_compute; reflexivity
    | vm_compute; discriminate | vm_compute; discriminate |].
  cbv [mbind result_bind].
  eexists. split; [reflexivity |].
  cbn [App.avg_temperature App.avg_precipitation App.avg_soil_moisture].
  change (inject_Z (10 ^ Z.of_nat 1)) with 10%Q in Ht1, Ht2.
  change (inject_Z (10 ^ Z.of_nat 2)) with 100%Q in Hp1, Hp2, Hs1, Hs2.
  change (inject_Z 245) with 245%Q in Ht1. change (inject_Z 275) with 275%Q in Ht2.
  change (inject_Z 450) with 450%Q in Hp1. change (inject_Z 550) with 550%Q in Hp2.
  change (inject_Z 40) with 40%Q in Hs1. change (inject_Z 50) with 50%Q in Hs2.
  set (rt := py_round t 1) in *. set (rp := py_round p 2) in *.
  set (rs := py_round s 2) in *. clearbody rt rp rs.
  split; [lra |]. split; [lra |]. split; [lra |].
  split; [| reflexivity].
  rewrite app_recommendations_fired.
  cbn [App.avg_temperature App.avg_precipitation App.avg_soil_moisture].
  replace (fired rs rp rt) with (@nil string); [reflexivity |].
  symmetry. apply fired_nil. unfold Qgtb.
  rewrite andb_false_iff, !Qltb_false. repeat split; lra.
Qed.

Lemma app_fallback_is_mild_witness :
  let loaded :=
    App.load_nasa_data (fun _ => "") dry_hot_farm App.new_fetcher None 0 zeros in
  loaded.1.2 = App.new_fetcher /\
  drawn loaded.2 = 120 /\
  exists a,
    App.analyze_conditions loaded.1.1 = Return (Some a) /\
    (24.5 <= App.avg_temperature a <= 27.5)%Q /\
    (4.5 <= App.avg_precipitation a <= 5.5)%Q /\
    (0.4 <= App.avg_soil_moisture a <= 0.5)%Q /\
    App.generate_recommendations a = [App.OPTIMAL] /\
    forall irrigation fertilizer,
      App.calculate_yield loaded.1.1 irrigation fertilizer =
      Return (App.score a
                {| Decision.irrigation := 45; Decision.fertilizer := 50 |}
                irrigation fertilizer).
Proof.
  apply (app_fallback_is_mild (fun _ => "") dry_hot_farm App.new_fetcher 0 zeros).
  - reflexivity.
  - intros n. simpl. split; [discriminate | reflexivity].
Defined.

(** ** The cache of [app.py] *)

(** X8.  [get_climate_data] answers from the cache without looking at
    the request; on a miss it stores a response that arrived, so that every
    later call for the same coordinates and window gets that response
    whatever the network does, and other keys are left alone; on a miss with
    a failed request it returns the fallback data and stores nothing, so the
    next call asks again. *)
Theorem app_cache_behaviour (str : Q -> string) (self : App.NASADataFetcher)
    (lat lon : Q) (days : nat) (today : Z) (g : RandomState) :
  let key := App.cache_key str lat lon days in
  let get := App.get_climate_data str in
  (forall data response,
     App.cache self !! key = Some data ->
     get self lat lon days response today g = (data, self, g)) /\
  (App.cache self !! key = None ->
   forall data,
     exists fetcher,
       get self lat lon days (Some data) today g = (data, fetcher, g) /\
       (forall response today' g',
          get fetcher lat lon days response today' g' = (data, fetcher, g')) /\
       (forall k, k <> key -> App.cache fetcher !! k = App.cache self !! k)) /\
  (App.cache self !! key = None ->
   get self lat lon days None today g =
     ((App._get_sample_data today days g).1, self,
      (App._get_sample_data today days g).2) /\
   forall data,
     (get (get self lat lon days None today g).1.2 lat lon days (Some data)
        today g).1.1 = data).
Proof.
  intros key get. subst get. unfold App.get_climate_data. fold key.
  split; [| split].
  - intros data response ->. reflexivity.
  - intros -> data. eexists. split; [reflexivity |]. split.
    + intros response today' g'. cbn [App.cache].
      now rewrite lookup_insert_eq.
    + intros k Hk. cbn [App.cache]. now rewrite lookup_insert_ne.
  - intros Hmiss. rewrite Hmiss.
    destruct (App._get_sample_data today days g) as [sample g'] eqn:E.
    split; [reflexivity |]. intros data. cbn [fst snd]. now rewrite Hmiss.
Qed.

(** ** [game_engine.py] *)

Lemma engine_scoring_bounds (soil : Q) (irrigation fertilizer : Z) :
  (55 <= GameEngine.fertilizer_scoring fertilizer
           (GameEngine.irrigation_scoring soil irrigation 100) <= 135)%Z.
Proof.
  unfold GameEngine.fertilizer_scoring, GameEngine.irrigation_scoring.
  destruct (Qltb soil 0.3), (Qgtb soil 0.5), (50 <=? irrigation)%Z,
    (irrigation <=? 30)%Z, ((40 <=? fertilizer)%Z && (fertilizer <=? 60)%Z),
    (80 <? fertilizer)%Z, (fertilizer <? 20)%Z; lia.
Qed.

Lemma clampZ_inactive (x : Z) :
  (0 <= x <= 150)%Z -> py_maxZ 0 (py_minZ 150 x) = x.
Proof.
  intros H. unfold py_maxZ, py_minZ.
  destruct (Z.ltb_spec x 150);
    [destruct (Z.ltb_spec 0 x) | destruct (Z.ltb_spec 0 150)]; lia.
Qed.

(** X9.  With data loaded whose three averaged series are non-empty,
    [calculate_yield] of [game_engine.py] returns; the yield lies between 55
    and 135, so the clamp changes nothing and the feedback, which is keyed on
    the unclamped value, is keyed on the yield returned; the simulator comes
    back with water usage 10 times the irrigation and fertilizer cost 5 times
    the fertilizer and is otherwise as it was; and calculating again returns
    the same yield and feedback and changes nothing more. *)
Theorem engine_calculate_yield (self : GameEngine.FarmingSimulator)
    (params : parameter) :
  GameEngine.nasa_data self = Some params ->
  values (T2M params) <> [] -> values (PRECTOTCORR params) <> [] ->
  values (GWETROOT params) <> [] ->
  let d := GameEngine.decisions self in
  let self' :=
    with_costs self (GameEngine.irrigation d * 10) (GameEngine.fertilizer d * 5) in
  exists a yield_pct,
    GameEngine.analyze_conditions self = Return (Some a) /\
    GameEngine.calculate_yield self =
      Return (yield_pct, GameEngine._generate_feedback yield_pct a, self') /\
    (55 <= yield_pct <= 135)%Z /\
    GameEngine.calculate_yield self' =
      Return (yield_pct, GameEngine._generate_feedback yield_pct a, self').
Proof.
  intros Hdata Ht Hp Hs d self'.
  destruct (mean_bounds _ _ _ Ht (minimum_maximum_bound _)) as (t & Et & _).
  destruct (mean_bounds _ _ _ Hp (minimum_maximum_bound _)) as (p & Ep & _).
  destruct (mean_bounds _ _ _ Hs (minimum_maximum_bound _)) as (s & Es & _).
  assert (Ha : forall x : GameEngine.FarmingSimulator,
            GameEngine.nasa_data x = Some params ->
            GameEngine.analyze_conditions x =
            Return (Some {| GameEngine.avg_temperature := py_round t 1;
                            GameEngine.avg_precipitation := py_round p 2;
                            GameEngine.avg_soil_moisture := py_round s 2;
                            GameEngine.recommendation :=
                              GameEngine._generate_recommendation t p s |})).
  { intros x Hx. unfold GameEngine.analyze_conditions.
    now rewrite Hx, Et, Ep, Es. }
  pose proof (engine_scoring_bounds (py_round s 2) (GameEngine.irrigation d)
                (GameEngine.fertilizer d)) as Hb.
  eexists. eexists. split; [apply (Ha self Hdata) |].
  split; [| split; [exact Hb |]].
  - unfold GameEngine.calculate_yield. rewrite Hdata, (Ha self Hdata).
    cbv [mbind result_bind]. cbn [GameEngine.avg_soil_moisture].
    fold d. rewrite clampZ_inactive by lia.
    subst self'. unfold with_costs. now rewrite Hdata.
  - unfold GameEngine.calculate_yield.
    assert (Hdata' : GameEngine.nasa_data self' = Some params) by exact Hdata.
    rewrite Hdata', (Ha self' Hdata').
    cbv [mbind result_bind]. cbn [GameEngine.avg_soil_moisture].
    change (GameEngine.decisions self') with d.
    rewrite clampZ_inactive by lia.
    subst self'. unfold with_costs. cbn. now rewrite Hdata.
Qed.

Lemma engine_calculate_yield_witness :
  exists a yield_pct,
    GameEngine.analyze_conditions engine_farm = Return (Some a) /\
    GameEngine.calculate_yield engine_farm =
      Return (yield_pct, GameEngine._generate_feedback yield_pct a,
              with_costs engine_farm 600 250) /\
    (55 <= yield_pct <= 135)%Z /\
    GameEngine.calculate_yield (with_costs engine_farm 600 250) =
      Return (yield_pct, GameEngine._generate_feedback yield_pct a,
              with_costs engine_farm 600 250).
Proof.
  refine (engine_calculate_yield engine_farm (GameEngine._get_sample_data 0)
            eq_refl _ _ _); vm_compute; discriminate.
Defined.

Lemma engine_mid_band (soil : Q) (irrigation base_yield : Z) :
  Qltb soil 0.3 = false -> Qgtb soil 0.5 = false ->
  GameEngine.irrigation_scoring soil irrigation base_yield = base_yield.
Proof.
  intros H1 H2. unfold GameEngine.irrigation_scoring. now rewrite H1, H2.
Qed.

(** X10.  On its own fallback data [game_engine.py] reports the same
    summary on every date: temperature 24.5, precipitation 4.5, soil moisture
    0.4 and the one recommendation that conditions are optimal.  The soil
    moisture sits in the band the irrigation scoring leaves alone, so the
    yield is the base of 100 adjusted for the fertilizer only. *)
Theorem engine_fallback_summary (self : GameEngine.FarmingSimulator)
    (today : Z) :
  GameEngine.nasa_data self = Some (GameEngine._get_sample_data today) ->
  exists a feedback self',
    GameEngine.analyze_conditions self = Return (Some a) /\
    (GameEngine.avg_temperature a == 24.5)%Q /\
    (GameEngine.avg_precipitation a == 4.5)%Q /\
    (GameEngine.avg_soil_moisture a == 0.4)%Q /\
    GameEngine.recommendation a = [GameEngine.OPTIMAL] /\
    GameEngine.calculate_yield self =
      Return (GameEngine.fertilizer_scoring
                (GameEngine.fertilizer (GameEngine.decisions self)) 100,
              feedback, self').
Proof.
  intros Hdata.
  assert (Ha : exists a,
            GameEngine.analyze_conditions self = Return (Some a) /\
            (GameEngine.avg_temperature a == 24.5)%Q /\
            (GameEngine.avg_precipitation a == 4.5)%Q /\
            (GameEngine.avg_soil_moisture a == 0.4)%Q /\
            GameEngine.recommendation a = [GameEngine.OPTIMAL] /\
            Qltb (GameEngine.avg_soil_moisture a) 0.3 = false /\
            Qgtb (GameEngine.avg_soil_moisture a) 0.5 = false).
  { unfold GameEngine.analyze_conditions. rewrite Hdata.
    unfold GameEngine._get_sample_data.
    cbn [T2M PRECTOTCORR GWETROOT].
    rewrite !comprehension_values, length_date_range.
    eexists. split; [vm_compute; reflexivity |].
    vm_compute. repeat split. }
  destruct Ha as (a & Ea & Ht & Hp & Hs & Hr & H1 & H2).
  exists a. eexists. eexists.
  split; [exact Ea |]. do 4 (split; [assumption |]).
  unfold GameEngine.calculate_yield. rewrite Hdata, Ea.
  cbv [mbind result_bind].
  rewrite engine_mid_band by assumption.
  rewrite clampZ_inactive; [reflexivity |].
  unfold GameEngine.fertilizer_scoring.
  set (f := GameEngine.fertilizer (GameEngine.decisions self)).
  destruct ((40 <=? f)%Z && (f <=? 60)%Z), (80 <? f)%Z, (f <? 20)%Z; lia.
Qed.

Lemma engine_fallback_summary_witness :
  exists a feedback self',
    GameEngine.analyze_conditions engine_farm = Return (Some a) /\
    (GameEngine.avg_temperature a == 24.5)%Q /\
    (GameEngine.avg_precipitation a == 4.5)%Q /\
    (GameEngine.avg_soil_moisture a == 0.4)%Q /\
    GameEngine.recommendation a = [GameEngine.OPTIMAL] /\
    GameEngine.calculate_yield engine_farm =
      Return (GameEngine.fertilizer_scoring 50 100, feedback, self').
Proof.
  exact (engine_fallback_summary engine_farm 0 eq_refl).
Defined.

Lemma py_round_2_ge (k : Z) (x : Q) :
  (inject_Z k <= x * 100)%Q -> (inject_Z k <= py_round x 2 * 100)%Q.
Proof.
  intros H. unfold py_round. change (inject_Z (10 ^ Z.of_nat 2)) with 100%Q.
  destruct (round_half_even_between k (Qceiling (x * 100)) (x * 100))
    as [Hk _]; [split; [exact H | apply Qle_ceiling] |].
  rewrite Zle_Qle in Hk.
  set (r := inject_Z (round_half_even (x * 100))) in *. clearbody r.
  assert (E : (r / 100 * 100 == r)%Q) by (field; discriminate).
  now rewrite E.
Qed.

Lemma py_round_2_le (k : Z) (x : Q) :
  (x * 100 <= inject_Z k)%Q -> (py_round x 2 * 100 <= inject_Z k)%Q.
Proof.
  intros H. unfold py_round. change (inject_Z (10 ^ Z.of_nat 2)) with 100%Q.
  destruct (round_half_even_between (Qfloor (x * 100)) k (x * 100))
    as [_ Hk]; [split; [apply Qfloor_le | exact H] |].
  rewrite Zle_Qle in Hk.
  set (r := inject_Z (round_half_even (x * 100))) in *. clearbody r.
  assert (E : (r / 100 * 100 == r)%Q) by (field; discriminate).
  now rewrite E.
Qed.

(** X11.  [game_engine.py] takes its recommendations from the unrounded
    means and its scoring from the rounded soil moisture.  Whenever the
    scoring treats the soil as dry the low-moisture warning was given, and
    whenever it treats the soil as wet the mean was above 0.5; but not the
    other way round: at a mean of 0.299 the warning is given while the
    irrigation is scored as in the untouched band. *)
Theorem engine_warning_and_scoring :
  (forall temp precip soil : Q,
     (py_round soil 2 < 0.3)%Q ->
     GameEngine.LOW_SOIL ∈ GameEngine._generate_recommendation temp precip soil) /\
  (forall soil : Q, (0.5 < py_round soil 2)%Q -> (0.5 < soil)%Q) /\
  (GameEngine.LOW_SOIL ∈ GameEngine._generate_recommendation 25 3 0.299 /\
   forall irrigation base_yield,
     GameEngine.irrigation_scoring (py_round 0.299 2) irrigation base_yield =
     base_yield).
Proof.
  split; [| split; [| split]].
  - intros temp precip soil Hround.
    assert (Hs : Qltb soil 0.3 = true).
    { apply Qltb_true. apply Qnot_le_lt. intros Hge.
      pose proof (py_round_2_ge 30 soil) as H.
      change (inject_Z 30) with 30%Q in H.
      set (r := py_round soil 2) in *. clearbody r. lra. }
    unfold GameEngine._generate_recommendation. rewrite Hs.
    destruct (Qltb precip 2.0), (Qgtb temp 30), (Qgtb soil 0.5 && Qgtb precip 5);
      simpl; apply elem_of_cons; now left.
  - intros soil Hround. apply Qnot_le_lt. intros Hle.
    pose proof (py_round_2_le 50 soil) as H.
    change (inject_Z 50) with 50%Q in H.
    set (r := py_round soil 2) in *. clearbody r. lra.
  - apply (bool_decide_unpack _). vm_compute. exact I.
  - intros irrigation base_yield. apply engine_mid_band; vm_compute; reflexivity.
Qed.

(** ** Turns, cash and the board *)

Lemma end_turn_next (st : state) (now : string) :
  players st <> [] ->
  end_turn st now =
  Return (save_state
            (set_current_player st
               ((current_player st + 1) mod length (players st))) now).
Proof.
  intros H. unfold end_turn. destruct (players st) as [| p ps] eqn:E;
    [congruence |].
  do 3 f_equal.
  rewrite <- (Nat2Z.id ((current_player st + 1) mod length (p :: ps))).
  f_equal. rewrite Nat2Z.inj_mod, Nat2Z.inj_add. reflexivity.
Qed.

(** X12.  With at least one player, [end_turn] returns, passes the turn
    to the next seat, wrapping around after the last, and stamps the
    document; it leaves players, phase, dice and card alone.  The seat it
    sets is always a valid one, and from a valid seat as many turns as there
    are players bring the turn back to where it was. *)
Theorem end_turn_rotates (st : state) (now : string) :
  players st <> [] ->
  let n := length (players st) in
  (exists st',
     end_turn st now = Return st' /\
     current_player st' = (current_player st + 1) mod n /\
     current_player st' < n /\
     last_update st' = Some now /\
     players st' = players st /\ game_state st' = game_state st /\
     dice_value st' = dice_value st /\ current_card st' = current_card st) /\
  (forall k, exists st',
     end_turns k st now = Return st' /\
     players st' = players st /\
     (current_player st < n ->
      current_player st' = (current_player st + k) mod n)) /\
  (current_player st < n ->
   exists st', end_turns n st now = Return st' /\
               current_player st' = current_player st).
Proof.
  intros Hne n.
  assert (Hn : n <> 0).
  { subst n. destruct (players st); [congruence | discriminate]. }
  assert (Hturns : forall k s,
            players s = players st ->
            exists st', end_turns k s now = Return st' /\
                        players st' = players st /\
                        (current_player s < n ->
                         current_player st' = (current_player s + k) mod n)).
  { induction k as [| k IH]; intros s Hs.
    - exists s. split; [reflexivity |]. split; [exact Hs |].
      intros Hlt. rewrite Nat.add_0_r. symmetry. now apply Nat.mod_small.
    - cbn [end_turns]. rewrite end_turn_next by (rewrite Hs; exact Hne).
      cbv [mbind result_bind]. rewrite Hs. fold n.
      destruct (IH (save_state (set_current_player s
                      ((current_player s + 1) mod n)) now) Hs)
        as (st' & E & Hp & Hc).
      exists st'. split; [exact E |]. split; [exact Hp |].
      intros _. rewrite Hc by (simpl; now apply Nat.mod_upper_bound).
      simpl. rewrite Nat.Div0.add_mod_idemp_l. f_equal. lia. }
  split; [| split].
  - eexists. split; [now apply end_turn_next |]. fold n. simpl.
    repeat split. now apply Nat.mod_upper_bound.
  - intros k. apply Hturns. reflexivity.
  - intros Hlt. destruct (Hturns n st eq_refl) as (st' & E & _ & Hc).
    exists st'. split; [exact E |]. rewrite Hc by exact Hlt.
    rewrite <- Nat.Div0.add_mod_idemp_r, Nat.Div0.mod_same, Nat.add_0_r.
    now apply Nat.mod_small.
Qed.

Lemma end_turn_rotates_witness :
  exists st', end_turns 2 initial_state "now" = Return st' /\
              current_player st' = 0.
Proof.
  destruct (end_turn_rotates initial_state "now") as (_ & _ & H).
  - discriminate.
  - apply H. simpl. lia.
Defined.

(** X13.  A card the acting player can afford is paid in full and the
    balance cannot go below zero, whatever it was; nothing else of the
    player changes but the sustainability score, the other players are not
    touched, the phase goes back to ROLL, the card is cleared and the turn
    passes.  With the turn index off the table the call fails with an
    IndexError. *)
Theorem select_solution_pays (st : state) (s : solution) (now : string) :
  (forall p,
     players st !! current_player st = Some p -> (cost s <= cash p)%Z ->
     exists st' p',
       select_solution st s now = Return st' /\
       players st' = <[current_player st := p']> (players st) /\
       cash p' = (cash p - cost s)%Z /\ (0 <= cash p')%Z /\
       name p' = name p /\ position p' = position p /\ owned p' = owned p /\
       game_state st' = "ROLL" /\ current_card st' = None /\
       current_player st' = (current_player st + 1) mod length (players st) /\
       last_update st' = Some now /\ dice_value st' = dice_value st) /\
  (players st !! current_player st = None ->
   select_solution st s now = Raise IndexError).
Proof.
  split.
  - intros p Hp Hcash. unfold select_solution.
    rewrite (acting_player_Return st p Hp). cbv [mbind result_bind].
    destruct (Z.leb_spec (cost s) (cash p)) as [_ | ?]; [| lia].
    set (p' := match effect s !! "sustainability_change" with
               | Some change => _ | None => _ end).
    rewrite end_turn_next.
    + exists (save_state
                (set_current_player
                   (set_current_card
                      (set_game_state
                         (store_player st p') "ROLL") None)
                   ((current_player st + 1) mod
                      length (<[current_player st := p']> (players st)))) now), p'.
      split; [reflexivity |]. cbn. rewrite length_insert.
      subst p'. destruct (effect s !! "sustainability_change"); cbn;
        repeat split; lia.
    + cbn. intros E. apply (f_equal length) in E.
      rewrite length_insert in E. apply lookup_lt_Some in Hp. simpl in E. lia.
  - intros Hnone. unfold select_solution, acting_player. now rewrite Hnone.
Qed.

Lemma sumZ_cons (x : Z) (l : list Z) : sumZ (x :: l) = (x + sumZ l)%Z.
Proof. reflexivity. Qed.

Lemma inner_loop_sum (aid : string) (catalogue : list asset) (income : Z) :
  foldl (fun income a =>
           if bool_decide (id a = aid)
           then (income + default 0 (income_boost a))%Z else income)
        income catalogue =
  (income + sumZ (boosts aid catalogue))%Z.
Proof.
  revert income. induction catalogue as [| a cat IH]; intros income.
  - simpl. lia.
  - cbn [foldl]. rewrite IH. unfold boosts. rewrite filter_cons.
    destruct (decide (id a = aid)) as [E | E].
    + rewrite bool_decide_eq_true_2 by exact E. rewrite fmap_cons.
      unfold sumZ. cbn [foldr]. lia.
    + rewrite bool_decide_eq_false_2 by exact E. reflexivity.
Qed.

Lemma outer_loop_sum (owned_ids : list string) (catalogue : list asset)
    (income : Z) :
  foldl (fun income aid =>
           foldl (fun income a =>
                    if bool_decide (id a = aid)
                    then (income + default 0 (income_boost a))%Z else income)
                 income catalogue)
        income owned_ids =
  (income + sumZ ((fun aid => sumZ (boosts aid catalogue)) <$> owned_ids))%Z.
Proof.
  revert income. induction owned_ids as [| aid ids IH]; intros income.
  - simpl. lia.
  - cbn [foldl]. rewrite IH, inner_loop_sum, fmap_cons.
    rewrite sumZ_cons. lia.
Qed.

Lemma filter_id_nil (aid : string) (catalogue : list asset) :
  aid ∉ id <$> catalogue -> filter (fun a => id a = aid) catalogue = [].
Proof.
  induction catalogue as [| a cat IH]; [reflexivity |].
  rewrite fmap_cons, not_elem_of_cons. intros [Hne Hnot].
  rewrite filter_cons. destruct (decide (id a = aid)); [congruence | auto].
Qed.

Lemma field_income_closed (owned_ids : list string) (catalogue : list asset) :
  field_income owned_ids catalogue =
  (500 + sumZ ((fun aid => sumZ (boosts aid catalogue)) <$> owned_ids))%Z.
Proof. apply outer_loop_sum. Qed.

Lemma field_income_snoc (owned_ids : list string) (catalogue : list asset)
    (aid : string) :
  field_income (owned_ids ++ [aid]) catalogue =
  (field_income owned_ids catalogue + sumZ (boosts aid catalogue))%Z.
Proof.
  rewrite !field_income_closed, fmap_app.
  generalize ((fun aid0 => sumZ (boosts aid0 catalogue)) <$> owned_ids).
  intros l. cbn [fmap list_fmap]. generalize (sumZ (boosts aid catalogue)).
  intros z. unfold sumZ.
  induction l as [| x l IH]; cbn [app foldr] in *; lia.
Qed.

(** X14.  The income of a field tile is 500 plus, for every asset id the
    player holds, counted as often as it is held, every boost the catalogue
    lists under that id.  So a further purchase raises the income by the
    boosts listed under the asset's id, which is the asset's own boost when
    the catalogue lists that id once, and an id the catalogue does not list
    earns nothing. *)
Theorem field_income_sum (owned_ids : list string) (catalogue : list asset) :
  field_income owned_ids catalogue =
    (500 + sumZ ((fun aid => sumZ (boosts aid catalogue)) <$> owned_ids))%Z /\
  field_income [] catalogue = 500%Z /\
  (forall aid,
     field_income (owned_ids ++ [aid]) catalogue =
     (field_income owned_ids catalogue + sumZ (boosts aid catalogue))%Z) /\
  (forall a,
     filter (fun b => id b = id a) catalogue = [a] ->
     field_income (owned_ids ++ [id a]) catalogue =
     (field_income owned_ids catalogue + default 0 (income_boost a))%Z) /\
  (forall aid,
     aid ∉ id <$> catalogue ->
     field_income (owned_ids ++ [aid]) catalogue =
     field_income owned_ids catalogue).
Proof.
  pose proof (field_income_snoc owned_ids catalogue) as Happ.
  split; [apply field_income_closed |]. split; [reflexivity |].
  split; [exact Happ |]. split.
  - intros a Ha. rewrite Happ. unfold boosts. rewrite Ha.
    unfold sumZ. cbn [fmap list_fmap foldr]. lia.
  - intros aid Hnot. rewrite Happ. unfold boosts.
    replace (filter (fun a => id a = aid) catalogue) with (@nil asset);
      [unfold sumZ; cbn [fmap list_fmap foldr]; lia |].
    symmetry. now apply filter_id_nil.
Qed.

(** X15.  [update] does nothing while no roll is under way or while no
    more than 1000 ticks have passed since the roll began.  Once they have,
    with the acting player on the table and a board of at least one tile, it
    either returns with the roll finished, the rolled value recorded, the
    document stamped and the player moved by the rolled value around the
    board, on a tile that exists, or it fails with an IndexError because the
    card drawn on an event tile is not in the deck; looking up the tile never
    fails. *)
Theorem update_resolves_roll (self : HarvestHorizonGame) (ticks rolled : Z)
    (pick : nat) (now : string) :
  let st := document self in
  let tiles := board_tiles (content self) in
  (is_rolling self = false \/ (ticks - roll_start_time self <= 1000)%Z ->
   update self ticks rolled pick now = Return self) /\
  (is_rolling self = true -> (1000 < ticks - roll_start_time self)%Z ->
   forall p, players st !! current_player st = Some p -> tiles <> [] ->
   match update self ticks rolled pick now with
   | Return self' =>
       is_rolling self' = false /\ self_dice_value self' = rolled /\
       dice_value (document self') = rolled /\
       last_update (document self') = Some now /\
       exists p',
         players (document self') !! current_player st = Some p' /\
         position p' = ((position p + rolled) mod Z.of_nat (length tiles))%Z /\
         (0 <= position p' < Z.of_nat (length tiles))%Z /\
         is_Some (tiles !! Z.to_nat (position p'))
   | Raise e => e = IndexError /\ problem_cards (content self) !! pick = None
   end).
Proof.
  intros st tiles. split.
  - intros H. unfold update.
    destruct (is_rolling self); [| reflexivity].
    destruct H as [H | H]; [discriminate |].
    destruct (Z.ltb_spec 1000 (ticks - roll_start_time self)); [lia | reflexivity].
  - intros Hroll Hticks p Hp Htiles. unfold update. rewrite Hroll.
    destruct (Z.ltb_spec 1000 (ticks - roll_start_time self)); [| lia].
    cbn [andb].
    set (st0 := set_dice_value (document self) rolled).
    assert (Hp0 : players st0 !! current_player st0 = Some p) by exact Hp.
    rewrite (acting_player_Return st0 p Hp0). cbv [mbind result_bind].
    fold tiles. destruct tiles as [| t ts] eqn:Et; [congruence |].
    set (n := Z.of_nat (length (t :: ts))).
    assert (Hn : (0 < n)%Z) by (subst n; simpl; lia).
    set (p1 := set_position p ((position p + rolled) mod n)).
    pose proof (Z.mod_pos_bound (position p + rolled) n Hn) as Hpos.
    assert (Hsome : is_Some ((t :: ts) !! Z.to_nat (position p1))).
    { apply lookup_lt_is_Some. subst p1 n. cbn [position set_position]. lia. }
    destruct Hsome as [tile Htile]. rewrite Htile.
    assert (Hcur : players (store_player st0 p1) !! current_player st = Some p1)
      by exact (lookup_store_player st0 p p1 Hp0).
    destruct (bool_decide (type tile = "event")).
    { destruct (problem_cards (content self) !! pick); [| now split].
      repeat split. exists p1. repeat split; try apply Hpos.
      - exact Hcur.
      - rewrite Htile. eauto. }
    destruct (bool_decide (type tile = "shop")).
    { repeat split. exists p1. repeat split; try apply Hpos.
      - exact Hcur.
      - rewrite Htile. eauto. }
    set (p2 := set_cash p1 _).
    rewrite end_turn_next.
    + repeat split. exists p2. repeat split; try apply Hpos.
      * cbn. apply list_lookup_insert_eq. rewrite length_insert.
        eapply lookup_lt_Some, Hp.
      * cbn [position p2 set_cash]. rewrite Htile. eauto.
    + cbn. intros E. apply (f_equal length) in E.
      rewrite !length_insert in E. apply lookup_lt_Some in Hp.
      simpl in E. unfold st in Hp. lia.
Qed.

(** X16.  [buy_asset] charges the price and credits the asset's income
    boost at once, adds the asset's id to the player's assets, sets the phase
    to ROLL and passes the turn.  It does not look at the balance: the
    balance after is the balance before minus the price plus the boost, so a
    price above balance plus boost leaves the player in debt.  From then on a
    field tile pays the player more by every boost the catalogue lists under
    that id. *)
Theorem buy_asset_accounts (st : state) (a : asset) (now : string) :
  (forall p,
     players st !! current_player st = Some p ->
     exists st' p',
       buy_asset st a now = Return st' /\
       players st' = <[current_player st := p']> (players st) /\
       cash p' = (cash p - asset_cost a + default 0 (income_boost a))%Z /\
       ((cash p + default 0 (income_boost a) < asset_cost a)%Z ->
        (cash p' < 0)%Z) /\
       owned p' = owned p ++ [id a] /\
       (forall catalogue,
          field_income (owned p') catalogue =
          (field_income (owned p) catalogue + sumZ (boosts (id a) catalogue))%Z) /\
       name p' = name p /\ position p' = position p /\
       sustainability p' = sustainability p /\
       game_state st' = "ROLL" /\ current_card st' = current_card st /\
       current_player st' = (current_player st + 1) mod length (players st) /\
       last_update st' = Some now) /\
  (players st !! current_player st = None ->
   buy_asset st a now = Raise IndexError).
Proof.
  split.
  - intros p Hp. unfold buy_asset.
    rewrite (acting_player_Return st p Hp). cbv [mbind result_bind].
    rewrite end_turn_next.
    + eexists. eexists. split; [reflexivity |]. cbn. rewrite length_insert.
      split; [reflexivity |]. split; [reflexivity |]. split; [cbn; lia |].
      split; [reflexivity |].
      split; [intros catalogue;
              exact (field_income_snoc (owned p) catalogue (id a)) |].
      repeat split.
    + cbn. intros E. apply (f_equal length) in E.
      rewrite length_insert in E. apply lookup_lt_Some in Hp. simpl in E. lia.
  - intros Hnone. unfold buy_asset, acting_player. now rewrite Hnone.
Qed.
